(** * Graph generation options of kiali: [graph/options/options.go]

    A shallow embedding of [NewOptions], [parseAppenders], [GetGraphKind]
    and [resolveNamespaceDuration], and the properties of the request
    descriptor they build.

    Go strings are byte sequences: they are modelled as [string] (a list of
    8-bit [ascii]).  The signed 64-bit integers of the code ([int64],
    [time.Duration], [model.Duration]) are modelled as [Z]; the code only
    compares and copies them, so no wrap-around occurs in this file.  Go maps
    are [gmap]s. *)

From Stdlib Require Import ZArith Ascii String List Bool Lia.
From stdpp Require Import gmap strings list fin_maps.

Open Scope string_scope.
Open Scope Z_scope.

(** ** The Go standard library functions the code calls *)

Module strings.

(** [strings.Split(s, sep)] for a one-byte separator (the code always passes
    a comma): the substrings between the separators, so a string without a
    separator, the empty one included, gives one element. *)
Fixpoint Split (s : string) (sep : ascii) : list string :=
  match s with
  | EmptyString => [EmptyString]
  | String c r =>
      if Ascii.eqb c sep then EmptyString :: Split r sep
      else match Split r sep with
           | t :: ts => String c t :: ts
           | [] => [String c EmptyString]
           end
  end.

(** The white space of [unicode.IsSpace], as the UTF-8 byte sequences that
    encode it: the six ASCII ones, U+0085, U+00A0, U+1680, U+2000..U+200A,
    U+2028, U+2029, U+202F, U+205F and U+3000.  [spaceWidth s] is the width
    in bytes of the white space rune [s] starts with, and [0] when it starts
    with none. *)
Definition isAsciiSpace (c : ascii) : bool :=
  let n := nat_of_ascii c in
  ((9 <=? n) && (n <=? 13))%nat || (n =? 32)%nat.

Definition spaceWidth (s : string) : nat :=
  match s with
  | EmptyString => 0%nat
  | String c0 r0 =>
      if isAsciiSpace c0 then 1%nat
      else match nat_of_ascii c0, r0 with
           | 194%nat, String c1 _ =>
               let b1 := nat_of_ascii c1 in
               if ((b1 =? 133) || (b1 =? 160))%nat then 2%nat else 0%nat
           | 225%nat, String c1 (String c2 _) =>
               if ((nat_of_ascii c1 =? 154) && (nat_of_ascii c2 =? 128))%nat
               then 3%nat else 0%nat
           | 226%nat, String c1 (String c2 _) =>
               let b1 := nat_of_ascii c1 in
               let b2 := nat_of_ascii c2 in
               if ((b1 =? 128) &&
                   (((128 <=? b2) && (b2 <=? 138)) || (b2 =? 168) ||
                    (b2 =? 169) || (b2 =? 175)))%nat then 3%nat
               else if ((b1 =? 129) && (b2 =? 159))%nat then 3%nat
               else 0%nat
           | 227%nat, String c1 (String c2 _) =>
               if ((nat_of_ascii c1 =? 128) && (nat_of_ascii c2 =? 128))%nat
               then 3%nat else 0%nat
           | _, _ => 0%nat
           end
  end.

(** [strings.TrimLeftFunc(s, unicode.IsSpace)]: [skip] counts the bytes of
    the current white space rune that are still to be dropped. *)
Fixpoint trimLeftFrom (skip : nat) (s : string) : string :=
  match s with
  | EmptyString => EmptyString
  | String _ r =>
      match skip with
      | S k => trimLeftFrom k r
      | O => match spaceWidth s with
             | S k => trimLeftFrom k r
             | O => s
             end
      end
  end.

Definition TrimLeftSpace (s : string) : string := trimLeftFrom 0 s.

(** The same from the right.  A white space rune is decoded at the end of
    the string exactly when its encoding is a suffix of it, so the string is
    read backwards: [revSpaceWidth s] is the width of the white space rune
    the reversed string [s] ends with before it is reversed, its last byte
    first. *)
Definition revSpaceWidth (s : string) : nat :=
  match s with
  | EmptyString => 0%nat
  | String c0 r0 =>
      if isAsciiSpace c0 then 1%nat
      else match r0 with
           | String c1 r1 =>
               if (spaceWidth (String c1 (String c0 EmptyString)) =? 2)%nat
               then 2%nat
               else match r1 with
                    | String c2 _ =>
                        if (spaceWidth
                              (String c2 (String c1 (String c0 EmptyString)))
                            =? 3)%nat
                        then 3%nat else 0%nat
                    | EmptyString => 0%nat
                    end
           | EmptyString => 0%nat
           end
  end.

Fixpoint trimRevFrom (skip : nat) (s : string) : string :=
  match s with
  | EmptyString => EmptyString
  | String _ r =>
      match skip with
      | S k => trimRevFrom k r
      | O => match revSpaceWidth s with
             | S k => trimRevFrom k r
             | O => s
             end
      end
  end.

Definition TrimRightSpace (s : string) : string :=
  String.rev (trimRevFrom 0 (String.rev s)).

(** [strings.TrimSpace(s)] *)
Definition TrimSpace (s : string) : string := TrimRightSpace (TrimLeftSpace s).

End strings.

Module strconv.

(** [strconv.ParseBool(str)]: [None] stands for a non-nil error. *)
Definition ParseBool (str : string) : option bool :=
  if existsb (String.eqb str) ["1"; "t"; "T"; "TRUE"; "true"; "True"]
  then Some true
  else if existsb (String.eqb str) ["0"; "f"; "F"; "FALSE"; "false"; "False"]
  then Some false
  else None.

Definition digitOf (c : ascii) : option Z :=
  let n := nat_of_ascii c in
  if ((48 <=? n) && (n <=? 57))%nat then Some (Z.of_nat n - 48) else None.

(** The decimal digits of [s] read after the value [acc]; [None] on a byte
    that is no digit. *)
Fixpoint parseDigits (acc : Z) (s : string) : option Z :=
  match s with
  | EmptyString => Some acc
  | String c r =>
      match digitOf c with
      | Some d => parseDigits (10 * acc + d) r
      | None => None
      end
  end.

Definition parseUnsigned (s : string) : option Z :=
  match s with
  | EmptyString => None
  | _ => parseDigits 0 s
  end.

(** [strconv.ParseInt(s, 10, 64)]: an optional sign and at least one decimal
    digit; a value outside int64 is a range error.  [None] stands for a
    non-nil error of either kind. *)
Definition ParseInt (s : string) : option Z :=
  match s with
  | EmptyString => None
  | String c r =>
      let neg := Ascii.eqb c "-" in
      let body := if Ascii.eqb c "+" || neg then r else s in
      match parseUnsigned body with
      | None => None
      | Some un =>
          let cutoff := 2 ^ 63 in
          if negb neg && (cutoff <=? un) then None
          else if neg && (cutoff <? un) then None
          else Some (if neg then - un else un)
      end
  end.

End strconv.

(** ** External collaborators *)

(** What the code takes from outside the repository: Go's [time] package
    ([time.Time] with [t.IsZero()], the constructor [time.Unix(sec, nsec)],
    [t.Unix()] as [time_UnixOf] and [t.Sub(u)], a [time.Duration] in
    nanoseconds), [strconv.ParseFloat(s, 64)] over [float64], and
    prometheus' [model.ParseDuration] (the duration in nanoseconds; [None]
    stands for a non-nil error, which comes with the zero duration).
    [DefaultQuantile] is the constant [appender.DefaultQuantile].  The
    theorems below hold for every implementation of them. *)
Class Platform := {
  Time : Type;
  time_IsZero : Time -> bool;
  time_Unix : Z -> Z -> Time;
  time_UnixOf : Time -> Z;
  time_Sub : Time -> Time -> Z;
  float64 : Type;
  ParseFloat : string -> option float64;
  DefaultQuantile : float64;
  ParseDuration : string -> option Z
}.

Module models.
(** [models.Namespace], as far as the code reads it. *)
Record Namespace `{Platform} := {
  Name : string;
  CreationTimestamp : Time
}.
End models.

(** The world a request is resolved in: [business_Get token] is
    [business.Get(token)], an error or a layer whose
    [Namespace.GetNamespaces()] is in turn an error or the namespaces the
    caller may see; [clock k] is what the [k]-th call of [time.Now()]
    returns. *)
Record Env `{Platform} := {
  business_Get : string -> string + (string + list models.Namespace);
  clock : nat -> Time
}.

(** The value [r.Context().Value(key)] finds: nil, a string, or a value of
    another type. *)
Inductive ContextValue :=
| CtxNil
| CtxString (s : string)
| CtxOther.

(** [url.Values] *)
Abbreviation Values := (gmap string (list string)).

(** An [*http.Request] as the code reads it: [mux.Vars(r)], [r.URL.Query()]
    and the request context's value for the key "token". *)
Record Request := {
  Vars : gmap string string;
  Query : Values;
  ContextToken : ContextValue
}.

(** A Go map indexed at a key that may be absent gives the zero value. *)
Definition index (m : gmap string string) (key : string) : string :=
  default "" (m !! key).

(** [url.Values.Get]: the first value of the key, or the empty string. *)
Definition Get (v : Values) (key : string) : string :=
  match v !! key with
  | Some (x :: _) => x
  | _ => ""
  end.

(** The comma-ok test [_, ok := m[key]]. *)
Definition has {A} (m : gmap string A) (key : string) : bool :=
  match m !! key with
  | Some _ => true
  | None => false
  end.

(** ** Failures *)

(** Modelled from the spec: [graph.BadRequest], [graph.Forbidden],
    [graph.Error] and [graph.CheckError] belong to the package [graph],
    which is not among the sources.  The spec's error taxonomy has the three
    kinds below, and every one of them aborts the resolution at once
    (fail-fast, no partial descriptor): a failure is the panic's payload. *)
Inductive Failure :=
| BadRequest (message : string)
| Forbidden (message : string)
| Internal (message : string).

Inductive Result (A : Type) :=
| Ok (a : A)
| Panic (f : Failure).
Arguments Ok {A} a.
Arguments Panic {A} f.

Definition bindR {A B} (x : Result A) (k : A -> Result B) : Result B :=
  match x with
  | Ok a => k a
  | Panic f => Panic f
  end.

(** A computation that may panic and may read the clock: the state is the
    number of [time.Now()] calls made so far. *)
Definition M (A : Type) : Type := nat -> Result (A * nat).

Definition ret {A} (a : A) : M A := fun n => Ok (a, n).

Definition bind {A B} (x : M A) (k : A -> M B) : M B :=
  fun n => match x n with
           | Ok (a, n') => k a n'
           | Panic f => Panic f
           end.

Definition panic {A} (f : Failure) : M A := fun _ => Panic f.

Definition lift {A} (x : Result A) : M A :=
  fun n => match x with
           | Ok a => Ok (a, n)
           | Panic f => Panic f
           end.

Notation "'let*' x := e 'in' k" := (bind e (fun x => k))
  (at level 10, x name, e at level 100, k at level 200).
Notation "'run' e 'in' k" := (bind e (fun _ => k))
  (at level 10, e at level 100, k at level 200).

(** [when b e]: an [if b { e }] whose body only panics. *)
Definition when (b : bool) (e : M unit) : M unit :=
  if b then e else ret tt.

Definition time_Now `{Platform} (env : Env) : M Time :=
  fun n => Ok (clock env n, S n).

Module graph.

(** Modelled from the spec: the graph types of the package [graph], which
    the spec lists as app, service, versionedApp and workload. *)
Definition GraphTypeApp : string := "app".
Definition GraphTypeService : string := "service".
Definition GraphTypeVersionedApp : string := "versionedApp".
Definition GraphTypeWorkload : string := "workload".

(** [graph.NamespaceInfo] *)
Record NamespaceInfo := {
  Name : string;
  Duration : Z
}.

Definition BadRequest {A} (message : string) : M A := panic (BadRequest message).
Definition Forbidden {A} (message : string) : M A := panic (Forbidden message).
Definition Error {A} (message : string) : M A := panic (Internal message).

(** [graph.CheckError(err)], where [inl message] is a non-nil error. *)
Definition CheckError {A} (r : string + A) : M A :=
  match r with
  | inl message => panic (Internal message)
  | inr a => ret a
  end.

End graph.

Module appender.

(** Modelled from the spec: the names of the package [appender], which is
    not among the sources.  The spec quotes "serviceEntry" and
    "sidecarsCheck"; the others are the stage names of its table written the
    same way.  The Go compiler refuses a [switch] with two equal constant
    cases, so the seven names differ from one another and from the empty
    string. *)
Definition DeadNodeAppenderName : string := "deadNode".
Definition ServiceEntryAppenderName : string := "serviceEntry".
Definition IstioAppenderName : string := "istio".
Definition ResponseTimeAppenderName : string := "responseTime".
Definition SecurityPolicyAppenderName : string := "securityPolicy".
Definition SidecarsCheckAppenderName : string := "sidecarsCheck".
Definition UnusedNodeAppenderName : string := "unusedNode".

(** [appender.Appender]: the seven implementations the code builds, each
    with the fields it sets. *)
Inductive Appender `{Platform} :=
| ServiceEntryAppender (AccessibleNamespaces : gmap string Time)
| DeadNodeAppender
| ResponseTimeAppender (Quantile : float64) (GraphType : string)
    (InjectServiceNodes IncludeIstio : bool)
    (Namespaces : gmap string graph.NamespaceInfo) (QueryTime : Z)
| SecurityPolicyAppender (GraphType : string)
    (IncludeIstio InjectServiceNodes : bool)
    (Namespaces : gmap string graph.NamespaceInfo) (QueryTime : Z)
| UnusedNodeAppender (GraphType : string) (IsNodeGraph : bool)
| IstioAppender
| SidecarsCheckAppender.

End appender.

(** ** The options *)

Definition GroupByApp : string := "app".
Definition GroupByNone : string := "none".
Definition GroupByVersion : string := "version".
Definition NamespaceIstio : string := "istio-system".
Definition VendorCytoscape : string := "cytoscape".
Definition defaultDuration : string := "10m".
Definition defaultGraphType : string := graph.GraphTypeWorkload.
Definition defaultGroupBy : string := GroupByNone.
Definition defaultIncludeIstio : bool := false.
Definition defaultInjectServiceNodes : bool := false.
Definition defaultVendor : string := VendorCytoscape.

Definition graphKindNamespace : string := "namespace".
Definition graphKindNode : string := "node".

Record NodeOptions := {
  App : string;
  Namespace : string;
  Service : string;
  Version : string;
  Workload : string
}.

Record VendorOptions := {
  Duration : Z;
  GraphType : string;
  GroupBy : string;
  QueryTime : Z
}.

Record Options `{Platform} := {
  AccessibleNamespaces : gmap string Time;
  Appenders : list appender.Appender;
  IncludeIstio : bool;
  InjectServiceNodes : bool;
  Namespaces : gmap string graph.NamespaceInfo;
  Vendor : string;
  nodeOptions : NodeOptions;
  vendorOptions : VendorOptions
}.

(** Go's [a != b] on strings. *)
Definition neqb (a b : string) : bool := negb (String.eqb a b).
Infix "!=?" := neqb (at level 70).

(** [GetGraphKind] returns the kind of graph represented by the options. *)
Definition GetGraphKind `{Platform} (o : Options) : string :=
  if (App (nodeOptions o) !=? "") ||
     (Version (nodeOptions o) !=? "") ||
     (Workload (nodeOptions o) !=? "") ||
     (Service (nodeOptions o) !=? "")
  then graphKindNode
  else graphKindNamespace.

(** Go's [append(s, a)] *)
Definition append {A} (s : list A) (a : A) : list A := (s ++ [a])%list.

(** The [for] loop of [parseAppenders] over the requested names, with its
    [switch]: [requestedAppenders] is the map filled so far. *)
Fixpoint requestLoop (tokens : list string)
    (requestedAppenders : gmap string bool) : Result (gmap string bool) :=
  match tokens with
  | [] => Ok requestedAppenders
  | requestedAppender :: rest =>
      let name := strings.TrimSpace requestedAppender in
      if String.eqb name appender.DeadNodeAppenderName then
        requestLoop rest (<[appender.DeadNodeAppenderName := true]> requestedAppenders)
      else if String.eqb name appender.ServiceEntryAppenderName then
        requestLoop rest (<[appender.ServiceEntryAppenderName := true]> requestedAppenders)
      else if String.eqb name appender.IstioAppenderName then
        requestLoop rest (<[appender.IstioAppenderName := true]> requestedAppenders)
      else if String.eqb name appender.ResponseTimeAppenderName then
        requestLoop rest (<[appender.ResponseTimeAppenderName := true]> requestedAppenders)
      else if String.eqb name appender.SecurityPolicyAppenderName then
        requestLoop rest (<[appender.SecurityPolicyAppenderName := true]> requestedAppenders)
      else if String.eqb name appender.SidecarsCheckAppenderName then
        requestLoop rest (<[appender.SidecarsCheckAppenderName := true]> requestedAppenders)
      else if String.eqb name appender.UnusedNodeAppenderName then
        requestLoop rest (<[appender.UnusedNodeAppenderName := true]> requestedAppenders)
      else if String.eqb name "" then
        requestLoop rest requestedAppenders
      else Panic (BadRequest ("Invalid appender [" +:+ name +:+ "]"))
  end.

(** The quantile of the response time appender. *)
Definition responseTimeQuantile `{Platform} (params : Values) : float64 :=
  let quantile := DefaultQuantile in
  if has params "responseTimeQuantile" then
    match ParseFloat (Get params "responseTimeQuantile") with
    | Some responseTimeQuantile => responseTimeQuantile
    | None => quantile
    end
  else quantile.

Definition parseAppenders `{Platform} (params : Values) (o : Options)
    : Result (list appender.Appender) :=
  bindR
    (if has params "appenders" then
       bindR (requestLoop (strings.Split (Get params "appenders") ",") ∅)
             (fun requestedAppenders => Ok (requestedAppenders, false))
     else Ok (∅, true))
    (fun '(requestedAppenders, allAppenders) =>
  let appenders : list appender.Appender := [] in
  let appenders :=
    if has requestedAppenders appender.ServiceEntryAppenderName || allAppenders
    then append appenders (appender.ServiceEntryAppender (AccessibleNamespaces o))
    else appenders in
  let appenders :=
    if has requestedAppenders appender.DeadNodeAppenderName || allAppenders
    then append appenders appender.DeadNodeAppender
    else appenders in
  let appenders :=
    if has requestedAppenders appender.ResponseTimeAppenderName || allAppenders
    then append appenders
           (appender.ResponseTimeAppender (responseTimeQuantile params)
              (GraphType (vendorOptions o)) (InjectServiceNodes o)
              (IncludeIstio o) (Namespaces o) (QueryTime (vendorOptions o)))
    else appenders in
  let appenders :=
    if has requestedAppenders appender.SecurityPolicyAppenderName || allAppenders
    then append appenders
           (appender.SecurityPolicyAppender (GraphType (vendorOptions o))
              (IncludeIstio o) (InjectServiceNodes o) (Namespaces o)
              (QueryTime (vendorOptions o)))
    else appenders in
  let appenders :=
    if has requestedAppenders appender.UnusedNodeAppenderName || allAppenders
    then
      let hasNodeOptions :=
        (App (nodeOptions o) !=? "") || (Workload (nodeOptions o) !=? "") ||
        (Service (nodeOptions o) !=? "") in
      append appenders
        (appender.UnusedNodeAppender (GraphType (vendorOptions o)) hasNodeOptions)
    else appenders in
  let appenders :=
    if has requestedAppenders appender.IstioAppenderName || allAppenders
    then append appenders appender.IstioAppender
    else appenders in
  let appenders :=
    if has requestedAppenders appender.SidecarsCheckAppenderName || allAppenders
    then append appenders appender.SidecarsCheckAppender
    else appenders in
  Ok appenders).

(** [getAccessibleNamespaces] returns the namespaces accessible to the
    user, each with its creation timestamp. *)
Definition getAccessibleNamespaces `{Platform} (env : Env) (token : string)
    : M (gmap string Time) :=
  let* business := graph.CheckError (business_Get env token) in
  let* namespaces := graph.CheckError business in
  ret (fold_left
         (fun namespaceMap namespace =>
            <[models.Name namespace := models.CreationTimestamp namespace]>
              namespaceMap)
         namespaces ∅).

(** [resolveNamespaceDuration] determines if, given [queryTime], the
    requested range would lead to querying data before [nsCreationTime], and
    then returns an adjusted range; else the requested range. *)
Definition resolveNamespaceDuration `{Platform} (env : Env)
    (nsCreationTime : Time) (requestedRange : Z) (queryTime : Z) : M Z :=
  let resolvedBound := requestedRange in
  if negb (time_IsZero nsCreationTime) then
    let* referenceTime :=
      (if negb (queryTime =? 0) then ret (time_Unix queryTime 0)
       else time_Now env) in
    let nsLifetime := time_Sub referenceTime nsCreationTime in
    ret (if nsLifetime <? resolvedBound then nsLifetime else resolvedBound)
  else ret resolvedBound.

(** The [for] loop of [NewOptions] over the requested namespaces:
    [namespaceMap] is the map filled so far. *)
Fixpoint namespaceLoop `{Platform} (env : Env)
    (accessibleNamespaces : gmap string Time) (duration queryTime : Z)
    (tokens : list string) (namespaceMap : gmap string graph.NamespaceInfo)
    : M (gmap string graph.NamespaceInfo) :=
  match tokens with
  | [] => ret namespaceMap
  | namespaceToken :: rest =>
      let namespaceToken := strings.TrimSpace namespaceToken in
      match accessibleNamespaces !! namespaceToken with
      | Some creationTime =>
          let* d := resolveNamespaceDuration env creationTime duration queryTime in
          namespaceLoop env accessibleNamespaces duration queryTime rest
            (<[namespaceToken :=
                 {| graph.Name := namespaceToken; graph.Duration := d |}]>
               namespaceMap)
      | None =>
          graph.Forbidden
            ("Requested namespace [" +:+ namespaceToken +:+ "] is not accessible.")
      end
  end.

Definition NewOptions `{Platform} (env : Env) (r : Request) : M Options :=
  (* path variables (0 or more will be set) *)
  let vars := Vars r in
  let app := index vars "app" in
  let namespace := index vars "namespace" in
  let service := index vars "service" in
  let version := index vars "version" in
  let workload := index vars "workload" in
  (* query params *)
  let params := Query r in
  let durationString := Get params "duration" in
  let graphType := Get params "graphType" in
  let groupBy := Get params "groupBy" in
  let includeIstioString := Get params "includeIstio" in
  let injectServiceNodesString := Get params "injectServiceNodes" in
  let namespaces := Get params "namespaces" in
  let queryTimeString := Get params "queryTime" in
  let vendor := Get params "vendor" in
  let* duration :=
    (if String.eqb durationString "" then
       ret (default 0 (ParseDuration defaultDuration))
     else match ParseDuration durationString with
          | Some d => ret d
          | None => graph.BadRequest ("Invalid duration [" +:+ durationString +:+ "]")
          end) in
  let* graphType :=
    (if String.eqb graphType "" then ret defaultGraphType
     else if (graphType !=? graph.GraphTypeApp) &&
             (graphType !=? graph.GraphTypeService) &&
             (graphType !=? graph.GraphTypeVersionedApp) &&
             (graphType !=? graph.GraphTypeWorkload)
     then graph.BadRequest ("Invalid graphType [" +:+ graphType +:+ "]")
     else ret graphType) in
  (* app node graphs require an app graph type *)
  run when ((app !=? "") && (graphType !=? graph.GraphTypeApp) &&
            (graphType !=? graph.GraphTypeVersionedApp))
        (graph.BadRequest
           ("Invalid graphType [" +:+ graphType +:+
            "]. This node detail graph supports only graphType app or versionedApp."))
  in
  let* groupBy :=
    (if String.eqb groupBy "" then ret defaultGroupBy
     else if (groupBy !=? GroupByApp) && (groupBy !=? GroupByNone) &&
             (groupBy !=? GroupByVersion)
     then graph.BadRequest ("Invalid groupBy [" +:+ groupBy +:+ "]")
     else ret groupBy) in
  let* includeIstio :=
    (if String.eqb includeIstioString "" then ret defaultIncludeIstio
     else match strconv.ParseBool includeIstioString with
          | Some b => ret b
          | None =>
              graph.BadRequest ("Invalid includeIstio [" +:+ includeIstioString +:+ "]")
          end) in
  let* injectServiceNodes :=
    (if String.eqb injectServiceNodesString "" then ret defaultInjectServiceNodes
     else match strconv.ParseBool injectServiceNodesString with
          | Some b => ret b
          | None =>
              graph.BadRequest
                ("Invalid injectServiceNodes [" +:+ injectServiceNodesString +:+ "]")
          end) in
  let* queryTime :=
    (if String.eqb queryTimeString "" then
       let* now := time_Now env in ret (time_UnixOf now)
     else match strconv.ParseInt queryTimeString with
          | Some q => ret q
          | None => graph.BadRequest ("Invalid queryTime [" +:+ queryTimeString +:+ "]")
          end) in
  let* vendor :=
    (if String.eqb vendor "" then ret defaultVendor
     else if vendor !=? VendorCytoscape
     then graph.BadRequest ("Invalid vendor [" +:+ vendor +:+ "]")
     else ret vendor) in
  (* Process namespaces options: *)
  let namespaceMap : gmap string graph.NamespaceInfo := ∅ in
  let* token :=
    match ContextToken r with
    | CtxString tokenString => ret tokenString
    | CtxOther => graph.Error "token is not of type string"
    | CtxNil => graph.Error "token missing in request context"
    end in
  let* accessibleNamespaces := getAccessibleNamespaces env token in
  (* If path variable is set then it is the only relevant namespace *)
  let namespaces := if namespace !=? "" then namespace else namespaces in
  run when (String.eqb namespaces "")
        (graph.BadRequest
           "At least one namespace must be specified via the namespaces query parameter.")
  in
  let* namespaceMap :=
    namespaceLoop env accessibleNamespaces duration queryTime
      (strings.Split namespaces ",") namespaceMap in
  (* Service graphs require service injection *)
  let injectServiceNodes :=
    if String.eqb graphType graph.GraphTypeService then true
    else injectServiceNodes in
  let options :=
    {| AccessibleNamespaces := accessibleNamespaces;
       Appenders := [];
       IncludeIstio := includeIstio;
       InjectServiceNodes := injectServiceNodes;
       Namespaces := namespaceMap;
       Vendor := vendor;
       nodeOptions :=
         {| App := app; Namespace := namespace; Service := service;
            Version := version; Workload := workload |};
       vendorOptions :=
         {| Duration := duration; GraphType := graphType; GroupBy := groupBy;
            QueryTime := queryTime |} |} in
  let* appenders := lift (parseAppenders params options) in
  ret {| AccessibleNamespaces := AccessibleNamespaces options;
         Appenders := appenders;
         IncludeIstio := IncludeIstio options;
         InjectServiceNodes := InjectServiceNodes options;
         Namespaces := Namespaces options;
         Vendor := Vendor options;
         nodeOptions := nodeOptions options;
         vendorOptions := vendorOptions options |}.

(** ** The vocabulary of the properties *)

(** The seven stages of the pipeline, and the stage an appender is. *)
Inductive Stage :=
| ServiceEntry
| DeadNode
| ResponseTime
| SecurityPolicy
| UnusedNode
| Istio
| SidecarsCheck.

Definition stageOf `{Platform} (a : appender.Appender) : Stage :=
  match a with
  | appender.ServiceEntryAppender _ => ServiceEntry
  | appender.DeadNodeAppender => DeadNode
  | appender.ResponseTimeAppender _ _ _ _ _ _ => ResponseTime
  | appender.SecurityPolicyAppender _ _ _ _ _ => SecurityPolicy
  | appender.UnusedNodeAppender _ _ => UnusedNode
  | appender.IstioAppender => Istio
  | appender.SidecarsCheckAppender => SidecarsCheck
  end.

(** The name a request selects a stage by. *)
Definition stageName (st : Stage) : string :=
  match st with
  | ServiceEntry => appender.ServiceEntryAppenderName
  | DeadNode => appender.DeadNodeAppenderName
  | ResponseTime => appender.ResponseTimeAppenderName
  | SecurityPolicy => appender.SecurityPolicyAppenderName
  | UnusedNode => appender.UnusedNodeAppenderName
  | Istio => appender.IstioAppenderName
  | SidecarsCheck => appender.SidecarsCheckAppenderName
  end.

(** The fixed order of the stages, as the spec's table of known stages
    lists them. *)
Definition tableOrder : list Stage :=
  [ServiceEntry; DeadNode; ResponseTime; SecurityPolicy; UnusedNode; Istio;
   SidecarsCheck].

(** The names a request gives in its appenders parameter, trimmed. *)
Definition requestedNames (params : Values) : list string :=
  map strings.TrimSpace (strings.Split (Get params "appenders") ",").

Definition inb (x : string) (l : list string) : bool :=
  existsb (String.eqb x) l.

(** Whether a request selects a stage: all of them without the appenders
    parameter, and with it the ones it names. *)
Definition selects (params : Values) (st : Stage) : bool :=
  if has params "appenders" then inb (stageName st) (requestedNames params)
  else true.

(** A trimmed token the [switch] of [parseAppenders] accepts. *)
Definition recognized (name : string) : bool :=
  inb name (map stageName tableOrder) || String.eqb name "".

(** The pipeline of a selection [sel] of stages, in the order of the table:
    what the second half of [parseAppenders] builds. *)
Definition assemble `{Platform} (sel : Stage -> bool) (quantile : float64)
    (o : Options) : list appender.Appender :=
  ((if sel ServiceEntry
    then [appender.ServiceEntryAppender (AccessibleNamespaces o)] else []) ++
   (if sel DeadNode then [appender.DeadNodeAppender] else []) ++
   (if sel ResponseTime
    then [appender.ResponseTimeAppender quantile (GraphType (vendorOptions o))
            (InjectServiceNodes o) (IncludeIstio o) (Namespaces o)
            (QueryTime (vendorOptions o))] else []) ++
   (if sel SecurityPolicy
    then [appender.SecurityPolicyAppender (GraphType (vendorOptions o))
            (IncludeIstio o) (InjectServiceNodes o) (Namespaces o)
            (QueryTime (vendorOptions o))] else []) ++
   (if sel UnusedNode
    then [appender.UnusedNodeAppender (GraphType (vendorOptions o))
            ((App (nodeOptions o) !=? "") || (Workload (nodeOptions o) !=? "") ||
             (Service (nodeOptions o) !=? ""))] else []) ++
   (if sel Istio then [appender.IstioAppender] else []) ++
   (if sel SidecarsCheck then [appender.SidecarsCheckAppender] else []))%list.

(** The first trimmed token the [switch] refuses. *)
Definition firstUnrecognized (names : list string) : option string :=
  List.find (fun name => negb (recognized name)) names.

(** The comma separated namespaces a request asks for: the path variable
    when it is set, else the query parameter. *)
Definition effectiveNamespaces (r : Request) : string :=
  let namespace := index (Vars r) "namespace" in
  if namespace !=? "" then namespace else Get (Query r) "namespaces".

(** The namespaces a request asks for, split at the commas and trimmed. *)
Definition requestedNamespaces (r : Request) : list string :=
  map strings.TrimSpace (strings.Split (effectiveNamespaces r) ",").

(** The message of the Forbidden failure for a namespace. *)
Definition notAccessible (namespace : string) : string :=
  "Requested namespace [" +:+ namespace +:+ "] is not accessible.".

(** The first element of a list that is no key of a map. *)
Fixpoint firstMissing {A} (m : gmap string A) (l : list string) : option string :=
  match l with
  | [] => None
  | x :: rest => if has m x then firstMissing m rest else Some x
  end.

(** The namespaces the gateway authorizes for the caller of a request, when
    the request carries a token and the gateway answers. *)
Definition authorizedSet `{Platform} (env : Env) (r : Request)
    : option (gmap string Time) :=
  match ContextToken r with
  | CtxString token =>
      match business_Get env token with
      | inr (inr namespaces) =>
          Some (fold_left
                  (fun namespaceMap namespace =>
                     <[models.Name namespace := models.CreationTimestamp namespace]>
                       namespaceMap)
                  namespaces ∅)
      | _ => None
      end
  | _ => None
  end.

Definition isSome {A} (o : option A) : bool :=
  match o with
  | Some _ => true
  | None => false
  end.

(** The graph type of a request: the default when the parameter is absent or
    empty. *)
Definition resolvedGraphType (r : Request) : string :=
  let graphType := Get (Query r) "graphType" in
  if String.eqb graphType "" then defaultGraphType else graphType.

(** The rules of the parameter resolver: what the checks of [NewOptions] on
    the single parameters accept, in the order of the code, and that a
    namespace is given. *)
Definition parametersValid `{Platform} (r : Request) : bool :=
  let params := Query r in
  let app := index (Vars r) "app" in
  let graphType := Get params "graphType" in
  let groupBy := Get params "groupBy" in
  let vendor := Get params "vendor" in
  (String.eqb (Get params "duration") "" ||
   isSome (ParseDuration (Get params "duration"))) &&
  ((String.eqb graphType "" ||
    negb ((graphType !=? graph.GraphTypeApp) &&
          (graphType !=? graph.GraphTypeService) &&
          (graphType !=? graph.GraphTypeVersionedApp) &&
          (graphType !=? graph.GraphTypeWorkload))) &&
  (negb ((app !=? "") && (resolvedGraphType r !=? graph.GraphTypeApp) &&
         (resolvedGraphType r !=? graph.GraphTypeVersionedApp)) &&
  ((String.eqb groupBy "" ||
    negb ((groupBy !=? GroupByApp) && (groupBy !=? GroupByNone) &&
          (groupBy !=? GroupByVersion))) &&
  ((String.eqb (Get params "includeIstio") "" ||
    isSome (strconv.ParseBool (Get params "includeIstio"))) &&
  ((String.eqb (Get params "injectServiceNodes") "" ||
    isSome (strconv.ParseBool (Get params "injectServiceNodes"))) &&
  ((String.eqb (Get params "queryTime") "" ||
    isSome (strconv.ParseInt (Get params "queryTime"))) &&
  ((String.eqb vendor "" || negb (vendor !=? VendorCytoscape)) &&
  negb (String.eqb (effectiveNamespaces r) "")))))))).

(** The fields of the descriptor of a request the parameter resolver
    accepts. *)
Definition resolvedDuration `{Platform} (r : Request) : Z :=
  let durationString := Get (Query r) "duration" in
  default 0 (ParseDuration
               (if String.eqb durationString "" then defaultDuration
                else durationString)).

Definition resolvedGroupBy (r : Request) : string :=
  let groupBy := Get (Query r) "groupBy" in
  if String.eqb groupBy "" then defaultGroupBy else groupBy.

Definition resolvedBool (s : string) (otherwise : bool) : bool :=
  if String.eqb s "" then otherwise else default false (strconv.ParseBool s).

Definition resolvedVendor (r : Request) : string :=
  let vendor := Get (Query r) "vendor" in
  if String.eqb vendor "" then defaultVendor else vendor.

Definition resolvedQueryTime `{Platform} (env : Env) (r : Request) : M Z :=
  let queryTimeString := Get (Query r) "queryTime" in
  if String.eqb queryTimeString "" then
    let* now := time_Now env in ret (time_UnixOf now)
  else ret (default 0 (strconv.ParseInt queryTimeString)).

Definition descriptor `{Platform} (r : Request)
    (accessibleNamespaces : gmap string Time) (queryTime : Z)
    (namespaceMap : gmap string graph.NamespaceInfo)
    (appenders : list appender.Appender) : Options :=
  {| AccessibleNamespaces := accessibleNamespaces;
     Appenders := appenders;
     IncludeIstio := resolvedBool (Get (Query r) "includeIstio") defaultIncludeIstio;
     InjectServiceNodes :=
       if String.eqb (resolvedGraphType r) graph.GraphTypeService then true
       else resolvedBool (Get (Query r) "injectServiceNodes")
              defaultInjectServiceNodes;
     Namespaces := namespaceMap;
     Vendor := resolvedVendor r;
     nodeOptions :=
       {| App := index (Vars r) "app";
          Namespace := index (Vars r) "namespace";
          Service := index (Vars r) "service";
          Version := index (Vars r) "version";
          Workload := index (Vars r) "workload" |};
     vendorOptions :=
       {| Duration := resolvedDuration r;
          GraphType := resolvedGraphType r;
          GroupBy := resolvedGroupBy r;
          QueryTime := queryTime |} |}.

(** What [NewOptions] does with a request the parameter resolver accepts,
    once the authorized namespaces are known: it reads the query time,
    resolves the namespaces and assembles the pipeline. *)
Definition resolution `{Platform} (env : Env) (r : Request)
    (accessibleNamespaces : gmap string Time) : M Options :=
  let* queryTime := resolvedQueryTime env r in
  let* namespaceMap :=
    namespaceLoop env accessibleNamespaces (resolvedDuration r) queryTime
      (strings.Split (effectiveNamespaces r) ",") ∅ in
  let* appenders :=
    lift (parseAppenders (Query r)
            (descriptor r accessibleNamespaces queryTime namespaceMap [])) in
  ret (descriptor r accessibleNamespaces queryTime namespaceMap appenders).

(** The outcome of a run, without the value it returns. *)
Definition succeeds {A} (x : Result A) : bool :=
  match x with
  | Ok _ => true
  | Panic _ => false
  end.

Definition failureOf {A} (x : Result A) : option Failure :=
  match x with
  | Ok _ => None
  | Panic f => Some f
  end.

(** ** A platform to run the definitions on *)

Module reference.

(** A wall clock reading: the seconds since January 1 of the year 1, UTC,
    and the nanoseconds within the second. *)
Record WallTime := {
  sec : Z;
  nsec : Z
}.

Definition unixToInternal : Z := 62135596800.

Definition IsZero (t : WallTime) : bool := (sec t =? 0) && (nsec t =? 0).

Definition Unix (s n : Z) : WallTime := {| sec := s + unixToInternal; nsec := n |}.

Definition UnixOf (t : WallTime) : Z := sec t - unixToInternal.

(** The difference in nanoseconds, kept within int64 as [Time.Sub] does. *)
Definition Sub (t u : WallTime) : Z :=
  let d := (sec t - sec u) * 1000000000 + (nsec t - nsec u) in
  Z.max (- 2 ^ 63) (Z.min (2 ^ 63 - 1) d).

(** A decimal fraction [digits / 10 ^ scale]. *)
Record Decimal := {
  digits : Z;
  scale : nat
}.

(** Decimal literals such as "0.99" and "1". *)
Definition parseDecimal (s : string) : option Decimal :=
  match strings.Split s "." with
  | [whole] =>
      match strconv.parseUnsigned whole with
      | Some w => Some {| digits := w; scale := 0 |}
      | None => None
      end
  | [whole; fraction] =>
      match strconv.parseUnsigned (whole +:+ fraction), whole, fraction with
      | Some w, String _ _, String _ _ =>
          Some {| digits := w; scale := String.length fraction |}
      | _, _, _ => None
      end
  | _ => None
  end.

(** The leading decimal digits of a string and what follows them. *)
Fixpoint spanDigits (s : string) : string * string :=
  match s with
  | EmptyString => (EmptyString, EmptyString)
  | String c r =>
      match strconv.digitOf c with
      | Some _ => let '(ds, rest) := spanDigits r in (String c ds, rest)
      | None => (EmptyString, s)
      end
  end.

(** Durations of the form digits and one unit, in nanoseconds. *)
Definition parseDuration (s : string) : option Z :=
  let '(ds, unit) := spanDigits s in
  match strconv.parseUnsigned ds with
  | None => None
  | Some n =>
      let ms := 1000000 in
      if String.eqb unit "ms" then Some (n * ms)
      else if String.eqb unit "s" then Some (n * 1000 * ms)
      else if String.eqb unit "m" then Some (n * 60 * 1000 * ms)
      else if String.eqb unit "h" then Some (n * 3600 * 1000 * ms)
      else if String.eqb unit "d" then Some (n * 24 * 3600 * 1000 * ms)
      else if String.eqb unit "w" then Some (n * 7 * 24 * 3600 * 1000 * ms)
      else if String.eqb unit "y" then Some (n * 365 * 24 * 3600 * 1000 * ms)
      else None
  end.

Definition platform : Platform := {|
  Time := WallTime;
  time_IsZero := IsZero;
  time_Unix := Unix;
  time_UnixOf := UnixOf;
  time_Sub := Sub;
  float64 := Decimal;
  ParseFloat := parseDecimal;
  DefaultQuantile := {| digits := 95; scale := 2 |};
  ParseDuration := parseDuration
|}.

(** A cluster with the namespaces bookinfo, created at the Unix second
    1500000000, and istio-system, whose creation time is not set; the clock
    reads the Unix second 1500000300 and one second more at every later
    call. *)
Definition namespaces : list (@models.Namespace platform) :=
  [ @models.Build_Namespace platform "bookinfo" (Unix 1500000000 0);
    @models.Build_Namespace platform "istio-system" {| sec := 0; nsec := 0 |} ].

Definition env : @Env platform :=
  @Build_Env platform
    (fun _ => inr (inr namespaces))
    (fun k => Unix (1500000300 + Z.of_nat k) 0).

Definition request (vars : list (string * string))
    (query : list (string * string)) : Request := {|
  Vars := list_to_map vars;
  Query := list_to_map (map (fun kv => (fst kv, [snd kv])) query);
  ContextToken := CtxString "token"
|}.

(** The options [parseAppenders] is given for a request that names the
    namespace bookinfo and nothing else. *)
Definition options : @Options platform :=
  @Build_Options platform
    (list_to_map [("bookinfo", Unix 1500000000 0)]) [] false false
    (list_to_map [("bookinfo", {| graph.Name := "bookinfo";
                                  graph.Duration := 300000000000 |})])
    "cytoscape"
    {| App := ""; Namespace := ""; Service := ""; Version := ""; Workload := "" |}
    {| Duration := 600000000000; GraphType := "workload"; GroupBy := "none";
       QueryTime := 1500000300 |}.

(** [url.Values] with one value for each key. *)
Definition values (query : list (string * string)) : Values :=
  list_to_map (map (fun kv => (fst kv, [snd kv])) query).

End reference.

(** ** The vocabulary of the further properties *)

(** The checks of [NewOptions] on the single parameters, one by one, in the
    order of the code. *)
Definition durationValid `{Platform} (r : Request) : bool :=
  String.eqb (Get (Query r) "duration") "" ||
  isSome (ParseDuration (Get (Query r) "duration")).

Definition graphTypeValid (r : Request) : bool :=
  let graphType := Get (Query r) "graphType" in
  String.eqb graphType "" ||
  negb ((graphType !=? graph.GraphTypeApp) &&
        (graphType !=? graph.GraphTypeService) &&
        (graphType !=? graph.GraphTypeVersionedApp) &&
        (graphType !=? graph.GraphTypeWorkload)).

Definition appGraphTypeValid (r : Request) : bool :=
  negb ((index (Vars r) "app" !=? "") &&
        (resolvedGraphType r !=? graph.GraphTypeApp) &&
        (resolvedGraphType r !=? graph.GraphTypeVersionedApp)).

Definition groupByValid (r : Request) : bool :=
  let groupBy := Get (Query r) "groupBy" in
  String.eqb groupBy "" ||
  negb ((groupBy !=? GroupByApp) && (groupBy !=? GroupByNone) &&
        (groupBy !=? GroupByVersion)).

Definition includeIstioValid (r : Request) : bool :=
  String.eqb (Get (Query r) "includeIstio") "" ||
  isSome (strconv.ParseBool (Get (Query r) "includeIstio")).

Definition injectServiceNodesValid (r : Request) : bool :=
  String.eqb (Get (Query r) "injectServiceNodes") "" ||
  isSome (strconv.ParseBool (Get (Query r) "injectServiceNodes")).

Definition queryTimeValid (r : Request) : bool :=
  String.eqb (Get (Query r) "queryTime") "" ||
  isSome (strconv.ParseInt (Get (Query r) "queryTime")).

Definition vendorValid (r : Request) : bool :=
  let vendor := Get (Query r) "vendor" in
  String.eqb vendor "" || negb (vendor !=? VendorCytoscape).

(** The message of the first of these checks that fails. *)
Definition firstParameterError `{Platform} (r : Request) : option string :=
  if negb (durationValid r) then
    Some ("Invalid duration [" +:+ Get (Query r) "duration" +:+ "]")
  else if negb (graphTypeValid r) then
    Some ("Invalid graphType [" +:+ Get (Query r) "graphType" +:+ "]")
  else if negb (appGraphTypeValid r) then
    Some ("Invalid graphType [" +:+ resolvedGraphType r +:+
          "]. This node detail graph supports only graphType app or versionedApp.")
  else if negb (groupByValid r) then
    Some ("Invalid groupBy [" +:+ Get (Query r) "groupBy" +:+ "]")
  else if negb (includeIstioValid r) then
    Some ("Invalid includeIstio [" +:+ Get (Query r) "includeIstio" +:+ "]")
  else if negb (injectServiceNodesValid r) then
    Some ("Invalid injectServiceNodes [" +:+
          Get (Query r) "injectServiceNodes" +:+ "]")
  else if negb (queryTimeValid r) then
    Some ("Invalid queryTime [" +:+ Get (Query r) "queryTime" +:+ "]")
  else if negb (vendorValid r) then
    Some ("Invalid vendor [" +:+ Get (Query r) "vendor" +:+ "]")
  else None.

(** What [NewOptions] does once the single parameters are checked: it reads
    the query time, takes the token and the authorized namespaces, and
    resolves the namespaces and the pipeline. *)
Definition afterParameters `{Platform} (env : Env) (r : Request) : M Options :=
  let* queryTime := resolvedQueryTime env r in
  let* token :=
    match ContextToken r with
    | CtxString tokenString => ret tokenString
    | CtxOther => graph.Error "token is not of type string"
    | CtxNil => graph.Error "token missing in request context"
    end in
  let* accessibleNamespaces := getAccessibleNamespaces env token in
  run when (String.eqb (effectiveNamespaces r) "")
        (graph.BadRequest
           "At least one namespace must be specified via the namespaces query parameter.")
  in
  let* namespaceMap :=
    namespaceLoop env accessibleNamespaces (resolvedDuration r) queryTime
      (strings.Split (effectiveNamespaces r) ",") ∅ in
  let* appenders :=
    lift (parseAppenders (Query r)
            (descriptor r accessibleNamespaces queryTime namespaceMap [])) in
  ret (descriptor r accessibleNamespaces queryTime namespaceMap appenders).

(** The creation time the gateway's list gives a namespace: that of the
    last entry of the name. *)
Fixpoint lastCreation `{Platform} (namespaces : list models.Namespace)
    (name : string) : option Time :=
  match namespaces with
  | [] => None
  | namespace :: rest =>
      match lastCreation rest name with
      | Some created => Some created
      | None =>
          if String.eqb (models.Name namespace) name
          then Some (models.CreationTimestamp namespace)
          else None
      end
  end.

(** The stages of the pipeline as a descriptor configures them. *)
Definition configuredBy `{Platform} (o : Options) (quantile : float64)
    (a : appender.Appender) : Prop :=
  match a with
  | appender.ServiceEntryAppender accessible =>
      accessible = AccessibleNamespaces o
  | appender.ResponseTimeAppender q graphType inject istio namespaces queryTime =>
      q = quantile /\ graphType = GraphType (vendorOptions o) /\
      inject = InjectServiceNodes o /\ istio = IncludeIstio o /\
      namespaces = Namespaces o /\ queryTime = QueryTime (vendorOptions o)
  | appender.SecurityPolicyAppender graphType istio inject namespaces queryTime =>
      graphType = GraphType (vendorOptions o) /\ istio = IncludeIstio o /\
      inject = InjectServiceNodes o /\ namespaces = Namespaces o /\
      queryTime = QueryTime (vendorOptions o)
  | appender.UnusedNodeAppender graphType isNodeGraph =>
      graphType = GraphType (vendorOptions o) /\
      isNodeGraph = (App (nodeOptions o) !=? "") ||
                    (Workload (nodeOptions o) !=? "") ||
                    (Service (nodeOptions o) !=? "")
  | appender.DeadNodeAppender | appender.IstioAppender
  | appender.SidecarsCheckAppender => True
  end.

(** The options of a request that sets the version path variable and no
    other node option. *)
Definition versionOnlyOptions : @Options reference.platform :=
  @Build_Options reference.platform
    (list_to_map [("bookinfo", reference.Unix 1500000000 0)]) [] false false
    (list_to_map [("bookinfo", {| graph.Name := "bookinfo";
                                  graph.Duration := 300000000000 |})])
    "cytoscape"
    {| App := ""; Namespace := "bookinfo"; Service := ""; Version := "v1";
       Workload := "" |}
    {| Duration := 600000000000; GraphType := "workload"; GroupBy := "none";
       QueryTime := 1500000300 |}.

(** The query parameters [NewOptions] and [parseAppenders] read. *)
Definition knownParameters : list string :=
  ["duration"; "graphType"; "groupBy"; "includeIstio"; "injectServiceNodes";
   "namespaces"; "queryTime"; "vendor"; "appenders"; "responseTimeQuantile"].

(** ** Properties *)

(** *** The monad *)

Lemma bind_Ok_inv {A B} (x : M A) (k : A -> M B) n r :
  bind x k n = Ok r -> exists a n1, x n = Ok (a, n1) /\ k a n1 = Ok r.
Proof.
  unfold bind. destruct (x n) as [[a n1]|f]; [|discriminate].
  intros Hk. by exists a, n1.
Qed.

Lemma bind_Ok {A B} (x : M A) (k : A -> M B) n a n1 :
  x n = Ok (a, n1) -> bind x k n = k a n1.
Proof. unfold bind. by intros ->. Qed.

Lemma bind_Panic {A B} (x : M A) (k : A -> M B) n f :
  x n = Panic f -> bind x k n = Panic f.
Proof. unfold bind. by intros ->. Qed.

Lemma bind_ext {A B} (x : M A) (k k' : A -> M B) n :
  (forall a n1, k a n1 = k' a n1) -> bind x k n = bind x k' n.
Proof. intros Hk. unfold bind. destruct (x n) as [[a n1]|f]; [apply Hk|done]. Qed.


(** *** Strings *)

Lemma eqb_neq_true (a b : string) : (a !=? b) = true <-> a <> b.
Proof.
  unfold neqb. destruct (String.eqb_spec a b) as [->|Hne]; simpl; split; done.
Qed.


Lemma Split_not_nil s sep : strings.Split s sep <> [].
Proof.
  destruct s as [|c r]; simpl; [done|].
  destruct (Ascii.eqb c sep); [done|].
  by destruct (strings.Split r sep).
Qed.

Lemma inb_elem_of x l : inb x l = true <-> x ∈ l.
Proof.
  unfold inb. rewrite existsb_exists. split.
  - intros (y & Hy & Heq). apply String.eqb_eq in Heq as ->.
    by apply list_elem_of_In.
  - intros Hx. exists x. split; [by apply list_elem_of_In|apply String.eqb_refl].
Qed.

Example Split_empty : strings.Split "" "," = [""].
Proof. reflexivity. Qed.

Example Split_names : strings.Split "a, b,,c" "," = ["a"; " b"; ""; "c"].
Proof. reflexivity. Qed.

Example Split_edges : strings.Split ",a," "," = [""; "a"; ""].
Proof. reflexivity. Qed.

Example TrimSpace_ascii : strings.TrimSpace "  book info	 " = "book info".
Proof. reflexivity. Qed.

Example TrimSpace_blank : strings.TrimSpace " " = "".
Proof. reflexivity. Qed.

Example TrimSpace_inner : strings.TrimSpace "a b" = "a b".
Proof. reflexivity. Qed.

(** U+00A0 before and U+2003 after the text are trimmed; the lone byte
    0xA0, which is no rune, is kept. *)
Example TrimSpace_unicode :
  strings.TrimSpace
    (String (ascii_of_nat 194) (String (ascii_of_nat 160)
       ("x " +:+ String (ascii_of_nat 226) (String (ascii_of_nat 128)
                   (String (ascii_of_nat 131) EmptyString)))))
  = "x" /\
  strings.TrimSpace (String (ascii_of_nat 160) "x") = String (ascii_of_nat 160) "x" /\
  strings.TrimSpace ("x" +:+ String (ascii_of_nat 160) EmptyString)
  = "x" +:+ String (ascii_of_nat 160) EmptyString.
Proof. repeat split; reflexivity. Qed.

Example ParseBool_values :
  strconv.ParseBool "True" = Some true /\ strconv.ParseBool "0" = Some false /\
  strconv.ParseBool "yes" = None /\ strconv.ParseBool "tRUE" = None.
Proof. repeat split; reflexivity. Qed.

Example ParseInt_values :
  strconv.ParseInt "-42" = Some (-42) /\ strconv.ParseInt "+7" = Some 7 /\
  strconv.ParseInt "" = None /\ strconv.ParseInt "-" = None /\
  strconv.ParseInt "1_000" = None /\
  strconv.ParseInt "9223372036854775807" = Some 9223372036854775807 /\
  strconv.ParseInt "9223372036854775808" = None /\
  strconv.ParseInt "-9223372036854775808" = Some (-9223372036854775808).
Proof. repeat split; reflexivity. Qed.

(** *** The clamp of the lookback duration *)

(** C1: [resolveNamespaceDuration] always returns; it returns the requested
    duration [d] unchanged when the namespace's creation time is the zero
    time, and otherwise the smaller of [d] and the lifetime [ref - nsCreated],
    where [ref] is [queryTime] when that is not zero and the clock's reading
    else.  So for [0 < d] and [0 <= lifetime] the result is
    [min d lifetime], and a negative lifetime (with a requested duration
    that is not negative) is returned as it is, without a failure. *)
Theorem resolveNamespaceDuration_clamp `{Platform} (env : Env)
    (nsCreated : Time) (d queryTime : Z) (n : nat) :
  let ref := if queryTime =? 0 then clock env n else time_Unix queryTime 0 in
  let lifetime := time_Sub ref nsCreated in
  exists result n',
    resolveNamespaceDuration env nsCreated d queryTime n = Ok (result, n') /\
    result = (if time_IsZero nsCreated then d else Z.min d lifetime) /\
    (time_IsZero nsCreated = true -> result = d) /\
    (time_IsZero nsCreated = false -> 0 < d -> 0 <= lifetime ->
     result = Z.min d lifetime) /\
    (time_IsZero nsCreated = false -> lifetime < 0 -> 0 <= d ->
     result = lifetime).
Proof.
  intros ref lifetime. unfold resolveNamespaceDuration.
  destruct (time_IsZero nsCreated) eqn:Hzero; simpl.
  - exists d, n. unfold ret. repeat split; try done.
  - assert (Hmin : (if lifetime <? d then lifetime else d) = Z.min d lifetime).
    { destruct (Z.ltb_spec lifetime d); lia. }
    subst lifetime ref.
    destruct (queryTime =? 0) eqn:Hq; simpl; unfold bind, ret, time_Now; simpl;
      eexists _, _; (split; [reflexivity|]); rewrite Hmin;
      repeat split; try done; lia.
Qed.

(** The run of C1 on a namespace created ten seconds after the reference
    instant: the lifetime, minus ten seconds, is what comes back. *)
Lemma resolveNamespaceDuration_clamp_witness :
  exists n',
    @resolveNamespaceDuration reference.platform reference.env
      (reference.Unix 1500000000 0) 600000000000 1499999990 0%nat
    = Ok (-10000000000, n').
Proof.
  destruct (@resolveNamespaceDuration_clamp reference.platform reference.env
              (reference.Unix 1500000000 0) 600000000000 1499999990 0%nat)
    as (result & n' & Hrun & _ & _ & _ & Hneg).
  exists n'. rewrite Hrun.
  rewrite (Hneg eq_refl); [reflexivity| |]; vm_compute; congruence.
Defined.

(** *** The appender pipeline *)

Lemma has_insert {A} (m : gmap string A) k k' v :
  has (<[k := v]> m) k' = String.eqb k k' || has m k'.
Proof.
  unfold has. destruct (String.eqb_spec k k') as [->|Hne]; simpl.
  - by rewrite lookup_insert_eq.
  - by rewrite lookup_insert_ne.
Qed.

Lemma has_empty {A} k : has (∅ : gmap string A) k = false.
Proof. unfold has. by rewrite lookup_empty. Qed.


Lemma stageName_not_empty st : stageName st <> "".
Proof. by destruct st. Qed.


Lemma recognized_inv name :
  recognized name = true -> name = "" \/ exists st, name = stageName st.
Proof.
  unfold recognized. rewrite orb_true_iff, inb_elem_of, String.eqb_eq.
  intros [Hin| ->]; [right|by left].
  apply list_elem_of_fmap in Hin as (st & -> & _). by exists st.
Qed.

Ltac case_name name s :=
  destruct (String.eqb_spec name s) as [->|?].

(** The loop over the requested names: it succeeds exactly when every
    trimmed token is recognized, and then the map holds the names met. *)
Lemma requestLoop_spec (tokens : list string) (m : gmap string bool) :
  match firstUnrecognized (map strings.TrimSpace tokens) with
  | Some name =>
      requestLoop tokens m = Panic (BadRequest ("Invalid appender [" +:+ name +:+ "]"))
  | None =>
      exists m', requestLoop tokens m = Ok m' /\
        forall st, has m' (stageName st) =
                   has m (stageName st) ||
                   inb (stageName st) (map strings.TrimSpace tokens)
  end.
Proof.
  revert m. induction tokens as [|tok rest IH]; intros m.
  - simpl. exists m. split; [done|]. intros st. by rewrite orb_false_r.
  - cbn [map firstUnrecognized List.find requestLoop].
    fold (firstUnrecognized (map strings.TrimSpace rest)).
    set (name := strings.TrimSpace tok).
    assert (Hstep : forall st' : Stage, name = stageName st' ->
      match firstUnrecognized (map strings.TrimSpace rest) with
      | Some bad =>
          requestLoop rest (<[name := true]> m)
          = Panic (BadRequest ("Invalid appender [" +:+ bad +:+ "]"))
      | None =>
          exists m', requestLoop rest (<[name := true]> m) = Ok m' /\
            forall st, has m' (stageName st) =
              has m (stageName st) || inb (stageName st) (name :: map strings.TrimSpace rest)
      end).
    { intros st' Hname. specialize (IH (<[name := true]> m)).
      destruct (firstUnrecognized (map strings.TrimSpace rest)); [done|].
      destruct IH as (m' & Hrun & Hm'). exists m'. split; [done|].
      intros st. rewrite Hm', has_insert. simpl.
      rewrite (String.eqb_sym name).
      by destruct (has m (stageName st)), (stageName st =? name)%string. }
    clearbody name.
    case_name name appender.DeadNodeAppenderName; [exact (Hstep DeadNode eq_refl)|].
    case_name name appender.ServiceEntryAppenderName; [exact (Hstep ServiceEntry eq_refl)|].
    case_name name appender.IstioAppenderName; [exact (Hstep Istio eq_refl)|].
    case_name name appender.ResponseTimeAppenderName; [exact (Hstep ResponseTime eq_refl)|].
    case_name name appender.SecurityPolicyAppenderName; [exact (Hstep SecurityPolicy eq_refl)|].
    case_name name appender.SidecarsCheckAppenderName; [exact (Hstep SidecarsCheck eq_refl)|].
    case_name name appender.UnusedNodeAppenderName; [exact (Hstep UnusedNode eq_refl)|].
    case_name name "".
    + simpl. specialize (IH m).
      destruct (firstUnrecognized (map strings.TrimSpace rest)); [done|].
      destruct IH as (m' & Hrun & Hm'). exists m'. split; [done|].
      intros st. rewrite Hm'. simpl.
      destruct (String.eqb_spec (stageName st) "") as [Hemp|_]; [|done].
      by destruct (stageName_not_empty st).
    + assert (Hbad : recognized name = false).
      { destruct (recognized name) eqn:Hrec; [|done].
        apply recognized_inv in Hrec as [->|[st ->]]; [done|].
        by destruct st. }
      by rewrite Hbad.
Qed.

Lemma append_assemble `{Platform} (sel : Stage -> bool) q (o : Options) :
  (let appenders : list appender.Appender := [] in
   let appenders :=
     if sel ServiceEntry
     then append appenders (appender.ServiceEntryAppender (AccessibleNamespaces o))
     else appenders in
   let appenders :=
     if sel DeadNode then append appenders appender.DeadNodeAppender
     else appenders in
   let appenders :=
     if sel ResponseTime
     then append appenders
            (appender.ResponseTimeAppender q (GraphType (vendorOptions o))
               (InjectServiceNodes o) (IncludeIstio o) (Namespaces o)
               (QueryTime (vendorOptions o)))
     else appenders in
   let appenders :=
     if sel SecurityPolicy
     then append appenders
            (appender.SecurityPolicyAppender (GraphType (vendorOptions o))
               (IncludeIstio o) (InjectServiceNodes o) (Namespaces o)
               (QueryTime (vendorOptions o)))
     else appenders in
   let appenders :=
     if sel UnusedNode
     then append appenders
            (appender.UnusedNodeAppender (GraphType (vendorOptions o))
               ((App (nodeOptions o) !=? "") || (Workload (nodeOptions o) !=? "") ||
                (Service (nodeOptions o) !=? "")))
     else appenders in
   let appenders :=
     if sel Istio then append appenders appender.IstioAppender else appenders in
   let appenders :=
     if sel SidecarsCheck then append appenders appender.SidecarsCheckAppender
     else appenders in
   appenders) = assemble sel q o.
Proof.
  unfold assemble, append.
  destruct (sel ServiceEntry), (sel DeadNode), (sel ResponseTime),
    (sel SecurityPolicy), (sel UnusedNode), (sel Istio), (sel SidecarsCheck);
    reflexivity.
Qed.

(** What [parseAppenders] returns, in one equation. *)
Lemma parseAppenders_spec `{Platform} (params : Values) (o : Options) :
  parseAppenders params o =
  if has params "appenders" then
    match firstUnrecognized (requestedNames params) with
    | Some name => Panic (BadRequest ("Invalid appender [" +:+ name +:+ "]"))
    | None => Ok (assemble (selects params) (responseTimeQuantile params) o)
    end
  else Ok (assemble (fun _ => true) (responseTimeQuantile params) o).
Proof.
  unfold parseAppenders.
  destruct (has params "appenders") eqn:Hhas.
  - pose proof (requestLoop_spec (strings.Split (Get params "appenders") ",") ∅)
      as Hloop.
    fold (requestedNames params) in Hloop.
    destruct (firstUnrecognized (requestedNames params)) as [name|].
    + by rewrite Hloop.
    + destruct Hloop as (m' & -> & Hm'). cbn [bindR].
      assert (Hsel : forall st, has m' (stageName st) || false = selects params st).
      { intros st. unfold selects. rewrite Hhas, Hm', has_empty.
        by rewrite orb_false_r. }
      rewrite <- (append_assemble (selects params)).
      rewrite <- !Hsel. reflexivity.
  - cbn [bindR]. rewrite <- (append_assemble (fun _ => true)).
    cbn beta. rewrite !orb_true_r. reflexivity.
Qed.

Lemma stageOf_assemble `{Platform} sel q (o : Options) :
  map stageOf (assemble sel q o) = List.filter sel tableOrder.
Proof.
  unfold assemble. simpl.
  destruct (sel ServiceEntry), (sel DeadNode), (sel ResponseTime),
    (sel SecurityPolicy), (sel UnusedNode), (sel Istio), (sel SidecarsCheck);
    reflexivity.
Qed.

Lemma assemble_ext `{Platform} sel sel' q (o : Options) :
  (forall st, sel st = sel' st) -> assemble sel q o = assemble sel' q o.
Proof. intros Hsel. unfold assemble. by rewrite !Hsel. Qed.

Lemma firstUnrecognized_None names :
  firstUnrecognized names = None <-> forall name, name ∈ names -> recognized name = true.
Proof.
  unfold firstUnrecognized. induction names as [|x rest IH]; simpl.
  - split; [|done]. intros _ name Hin. by apply elem_of_nil in Hin.
  - destruct (recognized x) eqn:Hx; simpl.
    + rewrite IH. split.
      * intros Hrest name [->|Hin]%elem_of_cons; [done|by apply Hrest].
      * intros Hall name Hin. apply Hall. by right.
    + split; [done|]. intros Hall.
      rewrite Hall in Hx; [done|by left].
Qed.

Lemma firstUnrecognized_Some names name :
  firstUnrecognized names = Some name -> name ∈ names /\ recognized name = false.
Proof.
  unfold firstUnrecognized. intros Hfind. apply find_some in Hfind as [Hin Hrec].
  split; [by apply list_elem_of_In|]. by destruct (recognized name).
Qed.

Lemma inb_Permutation x l l' : l ≡ₚ l' -> inb x l = inb x l'.
Proof.
  intros Hperm. apply eq_true_iff_eq. rewrite !inb_elem_of. by rewrite Hperm.
Qed.

Lemma elem_of_filter_tableOrder (sel : Stage -> bool) st :
  st ∈ List.filter sel tableOrder <-> sel st = true.
Proof.
  rewrite list_elem_of_In, filter_In. split; [by intros [_ ?]|].
  intros Hsel. split; [|done]. destruct st; simpl; tauto.
Qed.

Lemma NoDup_filter_tableOrder (sel : Stage -> bool) :
  NoDup (List.filter sel tableOrder).
Proof.
  apply NoDup_ListNoDup, List.NoDup_filter, NoDup_ListNoDup.
  unfold tableOrder.
  repeat (apply NoDup_cons_2;
          [rewrite ?elem_of_cons, elem_of_nil; intuition discriminate|]).
  apply NoDup_nil_2.
Qed.

(** C2: the pipeline [parseAppenders] returns lists its stages in the fixed
    order ServiceEntry, DeadNode, ResponseTime, SecurityPolicy, UnusedNode,
    Istio, SidecarsCheck, filtered to the stages the request selects; the
    order in which the request names them does not matter: two requests
    whose lists of names are permutations of each other get the same
    pipeline; and "sidecarsCheck,serviceEntry" gives ServiceEntry first and
    SidecarsCheck second. *)
Theorem parseAppenders_fixed_order `{Platform} :
  (forall params (o : Options) l,
      parseAppenders params o = Ok l ->
      map stageOf l = List.filter (selects params) tableOrder) /\
  (forall params params' (o : Options) l,
      has params "appenders" = true -> has params' "appenders" = true ->
      strings.Split (Get params "appenders") "," ≡ₚ
        strings.Split (Get params' "appenders") "," ->
      responseTimeQuantile params = responseTimeQuantile params' ->
      parseAppenders params o = Ok l -> parseAppenders params' o = Ok l) /\
  (forall o : Options,
      parseAppenders {["appenders" := ["sidecarsCheck,serviceEntry"]]} o =
      Ok [appender.ServiceEntryAppender (AccessibleNamespaces o);
          appender.SidecarsCheckAppender]).
Proof.
  split; [|split].
  - intros params o l. rewrite parseAppenders_spec.
    destruct (has params "appenders") eqn:Hhas.
    + destruct (firstUnrecognized (requestedNames params)); [done|].
      intros [= <-]. apply stageOf_assemble.
    + intros [= <-]. rewrite stageOf_assemble.
      unfold selects. by rewrite Hhas.
  - intros params params' o l Hhas Hhas' Hperm Hq.
    assert (Hnames : requestedNames params ≡ₚ requestedNames params').
    { unfold requestedNames. by rewrite Hperm. }
    rewrite !parseAppenders_spec, Hhas, Hhas'.
    destruct (firstUnrecognized (requestedNames params)) eqn:Hfirst; [done|].
    intros [= <-].
    assert (Hfirst' : firstUnrecognized (requestedNames params') = None).
    { rewrite firstUnrecognized_None in Hfirst |- *.
      intros name Hin. apply Hfirst. by rewrite Hnames. }
    rewrite Hfirst', <- Hq. f_equal. apply assemble_ext.
    intros st. unfold selects. rewrite Hhas, Hhas'.
    symmetry. by apply inb_Permutation.
  - intros o. rewrite parseAppenders_spec. reflexivity.
Qed.

(** The run of C2 on the request "serviceEntry,sidecarsCheck", which names
    the two stages of the example in the other order. *)
Lemma parseAppenders_fixed_order_witness :
  @parseAppenders reference.platform
    (reference.values [("appenders", "serviceEntry,sidecarsCheck")])
    reference.options
  = Ok [appender.ServiceEntryAppender (AccessibleNamespaces reference.options);
        appender.SidecarsCheckAppender].
Proof.
  destruct (@parseAppenders_fixed_order reference.platform) as (_ & Hperm & Hex).
  apply (Hperm {["appenders" := ["sidecarsCheck,serviceEntry"]]}).
  - reflexivity.
  - reflexivity.
  - apply perm_swap.
  - reflexivity.
  - apply Hex.
Defined.

(** C4: without the appenders parameter all seven stages are selected, in
    the fixed order; with it, when every trimmed token is a stage name or
    empty, the pipeline holds exactly the stages named (each once), so that
    the parameters "" and " " give the empty pipeline; and a trimmed token
    that is neither makes [parseAppenders] fail with BadRequest, for the
    first such token. *)
Theorem appender_selection `{Platform} (params : Values) (o : Options) :
  (has params "appenders" = false ->
   exists l, parseAppenders params o = Ok l /\ map stageOf l = tableOrder) /\
  (has params "appenders" = true ->
   (forall name, name ∈ requestedNames params -> recognized name = true) ->
   exists l, parseAppenders params o = Ok l /\ NoDup (map stageOf l) /\
     forall st, st ∈ map stageOf l <-> stageName st ∈ requestedNames params) /\
  (has params "appenders" = true ->
   Get params "appenders" = "" \/ Get params "appenders" = " " ->
   parseAppenders params o = Ok []) /\
  (has params "appenders" = true ->
   forall name, name ∈ requestedNames params -> recognized name = false ->
   exists refused,
     refused ∈ requestedNames params /\ recognized refused = false /\
     parseAppenders params o =
     Panic (BadRequest ("Invalid appender [" +:+ refused +:+ "]"))).
Proof.
  rewrite parseAppenders_spec. repeat split.
  - intros ->. eexists. split; [reflexivity|]. by rewrite stageOf_assemble.
  - intros Hhas Hall. rewrite Hhas.
    apply firstUnrecognized_None in Hall as ->.
    eexists. split; [reflexivity|]. rewrite stageOf_assemble.
    split; [apply NoDup_filter_tableOrder|].
    intros st. rewrite elem_of_filter_tableOrder.
    unfold selects. rewrite Hhas. apply inb_elem_of.
  - intros Hhas Hblank. rewrite Hhas.
    assert (Hnames : requestedNames params = [""]).
    { unfold requestedNames. by destruct Hblank as [-> | ->]. }
    rewrite Hnames. cbn [firstUnrecognized List.find recognized].
    rewrite (assemble_ext _ (fun _ => false)); [reflexivity|].
    intros st. unfold selects. rewrite Hhas, Hnames. by destruct st.
  - intros -> name Hin Hbad.
    destruct (firstUnrecognized (requestedNames params)) as [bad|] eqn:Hfirst.
    + apply firstUnrecognized_Some in Hfirst as [Hbin Hbrec]. by exists bad.
    + rewrite firstUnrecognized_None in Hfirst.
      rewrite (Hfirst name Hin) in Hbad. done.
Qed.

(** The run of C4 on a request without the appenders parameter, and on one
    that names a stage nobody knows. *)
Lemma appender_selection_witness :
  (exists l, @parseAppenders reference.platform (reference.values [])
               reference.options = Ok l /\
             map stageOf l = tableOrder) /\
  (exists refused,
      @parseAppenders reference.platform
        (reference.values [("appenders", "istio, bogus")]) reference.options
      = Panic (BadRequest ("Invalid appender [" +:+ refused +:+ "]"))).
Proof.
  split.
  - apply (proj1 (@appender_selection reference.platform (reference.values [])
                    reference.options)).
    reflexivity.
  - destruct (@appender_selection reference.platform
                (reference.values [("appenders", "istio, bogus")])
                reference.options) as (_ & _ & _ & Hbad).
    destruct (Hbad eq_refl "bogus") as (refused & _ & _ & Hrun).
    + change ("bogus" ∈ ["istio"; "bogus"]).
      apply elem_of_cons. right. apply elem_of_cons. by left.
    + reflexivity.
    + by exists refused.
Defined.

Lemma elem_of_assemble_ResponseTime `{Platform} sel q (o : Options) a :
  a ∈ assemble sel q o -> stageOf a = ResponseTime ->
  a = appender.ResponseTimeAppender q (GraphType (vendorOptions o))
        (InjectServiceNodes o) (IncludeIstio o) (Namespaces o)
        (QueryTime (vendorOptions o)).
Proof.
  unfold assemble. rewrite !elem_of_app. intros Hin Hst.
  destruct Hin as [Hin|[Hin|[Hin|[Hin|[Hin|[Hin|Hin]]]]]];
    match type of Hin with
    | _ ∈ (if ?b then _ else _) => destruct b
    end;
    try (by apply elem_of_nil in Hin);
    apply list_elem_of_singleton in Hin; subst a; done.
Qed.

Lemma ResponseTime_in_assemble `{Platform} sel q (o : Options) :
  sel ResponseTime = true ->
  appender.ResponseTimeAppender q (GraphType (vendorOptions o))
    (InjectServiceNodes o) (IncludeIstio o) (Namespaces o)
    (QueryTime (vendorOptions o)) ∈ assemble sel q o.
Proof.
  intros Hsel. unfold assemble. rewrite Hsel, !elem_of_app.
  right. right. left. apply list_elem_of_singleton. done.
Qed.

(** C8: for a request that selects the ResponseTime stage (every name it
    gives is recognized, and responseTime is among them or the appenders
    parameter is absent), [parseAppenders] does not fail whatever the
    responseTimeQuantile parameter is, and the pipeline has the ResponseTime
    stage with one quantile: the default constant when the parameter is
    absent or does not parse as a number, and the parsed value else.  The
    other fields of the stage are taken from the options. *)
Theorem responseTimeQuantile_fallback `{Platform} (params : Values) (o : Options) :
  selects params ResponseTime = true ->
  (has params "appenders" = true ->
   forall name, name ∈ requestedNames params -> recognized name = true) ->
  exists l quantile,
    parseAppenders params o = Ok l /\
    appender.ResponseTimeAppender quantile (GraphType (vendorOptions o))
      (InjectServiceNodes o) (IncludeIstio o) (Namespaces o)
      (QueryTime (vendorOptions o)) ∈ l /\
    (forall a, a ∈ l -> stageOf a = ResponseTime ->
       a = appender.ResponseTimeAppender quantile (GraphType (vendorOptions o))
             (InjectServiceNodes o) (IncludeIstio o) (Namespaces o)
             (QueryTime (vendorOptions o))) /\
    (has params "responseTimeQuantile" = true ->
     ParseFloat (Get params "responseTimeQuantile") = None ->
     quantile = DefaultQuantile) /\
    (forall v, has params "responseTimeQuantile" = true ->
     ParseFloat (Get params "responseTimeQuantile") = Some v ->
     quantile = v) /\
    (has params "responseTimeQuantile" = false -> quantile = DefaultQuantile).
Proof.
  intros Hsel Hall.
  assert (Hq :
    (has params "responseTimeQuantile" = true ->
     ParseFloat (Get params "responseTimeQuantile") = None ->
     responseTimeQuantile params = DefaultQuantile) /\
    (forall v, has params "responseTimeQuantile" = true ->
     ParseFloat (Get params "responseTimeQuantile") = Some v ->
     responseTimeQuantile params = v) /\
    (has params "responseTimeQuantile" = false ->
     responseTimeQuantile params = DefaultQuantile)).
  { unfold responseTimeQuantile. repeat split.
    - by intros -> ->.
    - by intros v -> ->.
    - by intros ->. }
  rewrite parseAppenders_spec.
  destruct (has params "appenders") eqn:Hhas.
  - apply firstUnrecognized_None in Hall as ->; [|done].
    exists (assemble (selects params) (responseTimeQuantile params) o),
      (responseTimeQuantile params).
    split; [done|]. split; [by apply ResponseTime_in_assemble|].
    split; [|done]. intros a. apply elem_of_assemble_ResponseTime.
  - exists (assemble (fun _ => true) (responseTimeQuantile params) o),
      (responseTimeQuantile params).
    split; [done|]. split; [by apply ResponseTime_in_assemble|].
    split; [|done]. intros a. apply elem_of_assemble_ResponseTime.
Qed.

(** The run of C8 on a request whose responseTimeQuantile is no number. *)
Lemma responseTimeQuantile_fallback_witness :
  exists l,
    @parseAppenders reference.platform
      (reference.values [("appenders", "responseTime");
                         ("responseTimeQuantile", "high")])
      reference.options = Ok l /\
    @appender.ResponseTimeAppender reference.platform
      (@DefaultQuantile reference.platform) "workload" false false
      (Namespaces reference.options) 1500000300 ∈ l.
Proof.
  destruct (@responseTimeQuantile_fallback reference.platform
              (reference.values [("appenders", "responseTime");
                                 ("responseTimeQuantile", "high")])
              reference.options)
    as (l & quantile & Hrun & Hin & _ & Hnone & _ & _).
  - reflexivity.
  - intros _ name Hname.
    change (name ∈ ["responseTime"]) in Hname.
    apply list_elem_of_singleton in Hname as ->. reflexivity.
  - exists l. split; [exact Hrun|].
    rewrite (Hnone eq_refl eq_refl) in Hin. exact Hin.
Defined.

(** *** The resolution of a request *)

Lemma bind_ret {A B} (a : A) (k : A -> M B) n : bind (ret a) k n = k a n.
Proof. reflexivity. Qed.


Lemma getAccessibleNamespaces_authorized `{Platform} (env : Env) r token n :
  ContextToken r = CtxString token ->
  getAccessibleNamespaces env token n =
  match authorizedSet env r with
  | Some accessible => Ok (accessible, n)
  | None =>
      match business_Get env token with
      | inl message | inr (inl message) => Panic (Internal message)
      | inr (inr _) => Panic (Internal "")
      end
  end.
Proof.
  intros Htoken. unfold authorizedSet, getAccessibleNamespaces. rewrite Htoken.
  destruct (business_Get env token) as [message|[message|namespaces]]; reflexivity.
Qed.

Ltac split_valid H :=
  repeat match type of H with
         | _ && _ = true =>
             let H1 := fresh "Hvalid" in
             apply andb_true_iff in H as [H1 H]
         end.

Ltac solve_step :=
  unfold resolvedDuration, resolvedGraphType, resolvedGroupBy, resolvedBool,
    resolvedVendor, resolvedQueryTime, when in *;
  repeat match goal with
         | |- context [if ?b then _ else _] => destruct b eqn:?
         | |- context [match ?o with Some _ => _ | None => _ end] =>
             destruct o eqn:?
         end;
  simpl in *; try done; try discriminate.

(** The next step of [NewOptions] returns [v]. *)
Ltac step v :=
  match goal with
  | |- bind ?X _ _ = _ =>
      let Hs := fresh "Hstep" in
      assert (Hs : X = ret v) by solve_step;
      rewrite Hs, bind_ret; clear Hs
  end.

Lemma authorizedSet_token `{Platform} (env : Env) r accessible :
  authorizedSet env r = Some accessible ->
  exists token, ContextToken r = CtxString token.
Proof.
  unfold authorizedSet. destruct (ContextToken r); try done. by eexists.
Qed.

(** A request the parameter resolver accepts, with a caller the gateway
    answers for, is resolved as [resolution] says. *)
Lemma NewOptions_valid `{Platform} (env : Env) (r : Request) accessible n :
  parametersValid r = true ->
  authorizedSet env r = Some accessible ->
  NewOptions env r n = resolution env r accessible n.
Proof.
  intros Hvalid Hauth. unfold parametersValid in Hvalid.
  cbv zeta in Hvalid. split_valid Hvalid.
  unfold NewOptions, resolution. cbv zeta.
  step (resolvedDuration r).
  step (resolvedGraphType r).
  step tt.
  step (resolvedGroupBy r).
  step (resolvedBool (Get (Query r) "includeIstio") defaultIncludeIstio).
  step (resolvedBool (Get (Query r) "injectServiceNodes") defaultInjectServiceNodes).
  match goal with
  | |- bind ?X _ _ = _ =>
      assert (Hq : X = resolvedQueryTime env r) by solve_step;
      rewrite Hq; clear Hq
  end.
  apply bind_ext. intros queryTime n1.
  step (resolvedVendor r).
  destruct (authorizedSet_token env r accessible Hauth) as [token Htoken].
  rewrite Htoken, bind_ret.
  rewrite (bind_Ok _ _ _ accessible n1).
  2:{ rewrite (getAccessibleNamespaces_authorized env r token n1 Htoken).
      by rewrite Hauth. }
  apply negb_true_iff in Hvalid. unfold effectiveNamespaces in Hvalid.
  rewrite Hvalid. cbn [when]. rewrite bind_ret.
  reflexivity.
Qed.

(** The next step of [NewOptions] either passes its check and returns [v],
    or fails with BadRequest. *)
Ltac solve_dich :=
  unfold resolvedDuration, resolvedGraphType, resolvedGroupBy, resolvedBool,
    resolvedVendor, resolvedQueryTime, effectiveNamespaces, when in *;
  repeat match goal with
         | |- context [if ?b then _ else _] => destruct b eqn:?
         | |- context [match ?o with Some _ => _ | None => _ end] =>
             destruct o eqn:?
         end;
  simpl in *;
  first [left; split; reflexivity | right; eexists; reflexivity].

Ltac fail_or_step v :=
  match goal with
  | Hinv : ?c && _ = false |- exists _, bind ?X _ _ = _ =>
      let Hd := fresh "Hd" in
      let Hc := fresh "Hc" in
      let m := fresh "message" in
      assert (Hd : (c = true /\ X = ret v) \/
                   (exists m, X = graph.BadRequest m)) by solve_dich;
      destruct Hd as [[Hc Hd]|[m Hd]]; rewrite Hd;
      [ rewrite bind_ret; rewrite Hc in Hinv; cbn [andb] in Hinv; clear Hd
      | by exists m ]
  end.

Lemma resolvedQueryTime_Ok `{Platform} (env : Env) r n :
  exists queryTime n1, resolvedQueryTime env r n = Ok (queryTime, n1).
Proof.
  unfold resolvedQueryTime.
  destruct (String.eqb _ _); by eexists _, _.
Qed.

Lemma NewOptions_invalid `{Platform} (env : Env) (r : Request) accessible n :
  parametersValid r = false ->
  authorizedSet env r = Some accessible ->
  exists message, NewOptions env r n = Panic (BadRequest message).
Proof.
  intros Hinvalid Hauth. unfold parametersValid in Hinvalid.
  cbv zeta in Hinvalid.
  unfold NewOptions. cbv zeta.
  fail_or_step (resolvedDuration r).
  fail_or_step (resolvedGraphType r).
  fail_or_step tt.
  fail_or_step (resolvedGroupBy r).
  fail_or_step (resolvedBool (Get (Query r) "includeIstio") defaultIncludeIstio).
  fail_or_step (resolvedBool (Get (Query r) "injectServiceNodes") defaultInjectServiceNodes).
  match goal with
  | Hinv : ?c && _ = false |- exists _, bind ?X _ _ = _ =>
      assert (Hd : (c = true /\ X = resolvedQueryTime env r) \/
                   (exists m, X = graph.BadRequest m)) by solve_dich;
      destruct Hd as [[Hc' Hd]|[m Hd]]; rewrite Hd;
      [ rewrite Hc' in Hinv; cbn [andb] in Hinv; clear Hd | by exists m ]
  end.
  destruct (resolvedQueryTime_Ok env r n) as (queryTime & n1 & Hq).
  rewrite (bind_Ok _ _ _ _ _ Hq).
  fail_or_step (resolvedVendor r).
  destruct (authorizedSet_token env r accessible Hauth) as [token Htoken].
  rewrite Htoken, bind_ret.
  rewrite (bind_Ok _ _ _ accessible n1).
  2:{ rewrite (getAccessibleNamespaces_authorized env r token n1 Htoken).
      by rewrite Hauth. }
  apply negb_false_iff in Hinvalid. unfold effectiveNamespaces in Hinvalid.
  rewrite Hinvalid. by eexists.
Qed.


(** The same without the check's outcome: the step returns or panics. *)
Ltac solve_panic_dich :=
  unfold resolvedDuration, resolvedGraphType, resolvedGroupBy, resolvedBool,
    resolvedVendor, resolvedQueryTime, effectiveNamespaces, when in *;
  repeat match goal with
         | |- context [if ?b then _ else _] => destruct b eqn:?
         | |- context [match ?o with Some _ => _ | None => _ end] =>
             destruct o eqn:?
         end;
  simpl in *;
  first [left; reflexivity | right; eexists; reflexivity].

Ltac panic_or_step v :=
  match goal with
  | |- exists _, bind ?X _ _ = _ =>
      let Hd := fresh "Hd" in
      let f := fresh "f" in
      assert (Hd : X = ret v \/ (exists f, X = panic f)) by solve_panic_dich;
      destruct Hd as [Hd|[f Hd]]; rewrite Hd;
      [ rewrite bind_ret; clear Hd | by exists f ]
  end.

Lemma NewOptions_no_gateway `{Platform} (env : Env) (r : Request) n :
  authorizedSet env r = None ->
  exists f, NewOptions env r n = Panic f.
Proof.
  intros Hauth. unfold NewOptions. cbv zeta.
  panic_or_step (resolvedDuration r).
  panic_or_step (resolvedGraphType r).
  panic_or_step tt.
  panic_or_step (resolvedGroupBy r).
  panic_or_step (resolvedBool (Get (Query r) "includeIstio") defaultIncludeIstio).
  panic_or_step (resolvedBool (Get (Query r) "injectServiceNodes") defaultInjectServiceNodes).
  match goal with
  | |- exists _, bind ?X _ _ = _ =>
      assert (Hd : X = resolvedQueryTime env r \/ (exists f, X = panic f))
        by solve_panic_dich;
      destruct Hd as [Hd|[f Hd]]; rewrite Hd; [clear Hd | by exists f]
  end.
  destruct (resolvedQueryTime_Ok env r n) as (queryTime & n1 & Hq).
  rewrite (bind_Ok _ _ _ _ _ Hq).
  panic_or_step (resolvedVendor r).
  destruct (ContextToken r) as [|token|] eqn:Htoken; try (by eexists).
  rewrite bind_ret.
  pose proof (getAccessibleNamespaces_authorized env r token n1 Htoken) as Hget.
  rewrite Hauth in Hget.
  destruct (business_Get env token) as [message|[message|namespaces]];
    rewrite (bind_Panic _ _ _ _ Hget); by eexists.
Qed.

Lemma NewOptions_Ok_inv `{Platform} (env : Env) (r : Request) n res :
  NewOptions env r n = Ok res ->
  parametersValid r = true /\
  exists accessible, authorizedSet env r = Some accessible /\
    resolution env r accessible n = Ok res.
Proof.
  intros Hrun.
  destruct (authorizedSet env r) as [accessible|] eqn:Hauth.
  - destruct (parametersValid r) eqn:Hvalid.
    + split; [done|]. exists accessible. split; [done|].
      by rewrite <- (NewOptions_valid env r accessible n Hvalid Hauth).
    + destruct (NewOptions_invalid env r accessible n Hvalid Hauth) as [message Hbad].
      congruence.
  - destruct (NewOptions_no_gateway env r n Hauth) as [f Hbad]. congruence.
Qed.

Lemma resolveNamespaceDuration_Ok `{Platform} (env : Env) nsCreated d queryTime n :
  exists result n', resolveNamespaceDuration env nsCreated d queryTime n = Ok (result, n').
Proof.
  unfold resolveNamespaceDuration.
  destruct (time_IsZero nsCreated); simpl; [by eexists _, _|].
  destruct (queryTime =? 0); simpl; by eexists _, _.
Qed.

Lemma has_true {A} (m : gmap string A) k : has m k = true <-> is_Some (m !! k).
Proof.
  unfold has. destruct (m !! k) eqn:E; split; intros Hx; try done.
Qed.

Lemma has_false {A} (m : gmap string A) k : has m k = false <-> m !! k = None.
Proof. unfold has. by destruct (m !! k). Qed.

Lemma firstMissing_Some {A} (m : gmap string A) l x :
  firstMissing m l = Some x -> x ∈ l /\ m !! x = None.
Proof.
  induction l as [|y rest IH]; simpl; [done|].
  destruct (has m y) eqn:Hy.
  - intros Hrest. destruct (IH Hrest) as [Hin Hnone]. split; [by right|done].
  - intros [= ->]. split; [by left|by apply has_false].
Qed.

Lemma firstMissing_None {A} (m : gmap string A) l :
  firstMissing m l = None <-> forall x, x ∈ l -> is_Some (m !! x).
Proof.
  induction l as [|y rest IH]; simpl.
  - split; [|done]. intros _ x Hx. by apply elem_of_nil in Hx.
  - destruct (has m y) eqn:Hy.
    + rewrite IH. apply has_true in Hy. split.
      * intros Hrest x [->|Hx]%elem_of_cons; [done|by apply Hrest].
      * intros Hall x Hx. apply Hall. by right.
    + split; [done|]. intros Hall. apply has_false in Hy.
      destruct (Hall y) as [v Hv]; [by left|congruence].
Qed.

(** The loop over the requested namespaces: it fails at the first token
    that is not accessible, and else returns a map whose keys are the keys it
    started from and the trimmed tokens. *)
Lemma namespaceLoop_spec `{Platform} (env : Env) accessible d queryTime
    (tokens : list string) (m : gmap string graph.NamespaceInfo) n :
  match firstMissing accessible (map strings.TrimSpace tokens) with
  | Some namespace =>
      namespaceLoop env accessible d queryTime tokens m n
      = Panic (Forbidden (notAccessible namespace))
  | None =>
      exists m' n',
        namespaceLoop env accessible d queryTime tokens m n = Ok (m', n') /\
        forall k, is_Some (m' !! k) <->
                  is_Some (m !! k) \/ k ∈ map strings.TrimSpace tokens
  end.
Proof.
  revert m n. induction tokens as [|tok rest IH]; intros m n.
  - simpl. exists m, n. split; [done|]. intros k. split; [by left|].
    intros [Hk|Hk]; [done|by apply elem_of_nil in Hk].
  - cbn [map firstMissing namespaceLoop].
    unfold has.
    destruct (accessible !! strings.TrimSpace tok) as [creationTime|] eqn:Hacc;
      [|reflexivity].
    destruct (resolveNamespaceDuration_Ok env creationTime d queryTime n)
      as (result & n1 & Hres).
    rewrite (bind_Ok _ _ _ _ _ Hres).
    specialize (IH (<[strings.TrimSpace tok :=
                       {| graph.Name := strings.TrimSpace tok;
                          graph.Duration := result |}]> m) n1).
    destruct (firstMissing accessible (map strings.TrimSpace rest)); [done|].
    destruct IH as (m' & n' & Hrun & Hdom).
    exists m', n'. split; [done|]. intros k. rewrite Hdom.
    rewrite elem_of_cons.
    destruct (decide (strings.TrimSpace tok = k)) as [->|Hne].
    + rewrite lookup_insert_eq. split; [intros _; right; by left|].
      intros _. left. by eexists.
    + rewrite lookup_insert_ne by done. split.
      * intros [Hk|Hk]; [by left|right; by right].
      * intros [Hk|[Hk|Hk]]; [by left|congruence|by right].
Qed.

Lemma resolution_Ok_inv `{Platform} (env : Env) r accessible n o n' :
  resolution env r accessible n = Ok (o, n') ->
  exists queryTime n1 namespaceMap appenders,
    resolvedQueryTime env r n = Ok (queryTime, n1) /\
    namespaceLoop env accessible (resolvedDuration r) queryTime
      (strings.Split (effectiveNamespaces r) ",") ∅ n1 = Ok (namespaceMap, n') /\
    parseAppenders (Query r)
      (descriptor r accessible queryTime namespaceMap []) = Ok appenders /\
    o = descriptor r accessible queryTime namespaceMap appenders.
Proof.
  unfold resolution. intros Hrun.
  apply bind_Ok_inv in Hrun as (queryTime & n1 & Hq & Hrun).
  apply bind_Ok_inv in Hrun as (namespaceMap & n2 & Hloop & Hrun).
  apply bind_Ok_inv in Hrun as (appenders & n3 & Hpa & Hrun).
  unfold lift in Hpa.
  destruct (parseAppenders _ _) as [l|f] eqn:Hparse; [|done].
  injection Hpa as -> ->. unfold ret in Hrun. injection Hrun as <- <-.
  by exists queryTime, n1, namespaceMap, appenders.
Qed.

Lemma requestedNamespaces_eq r :
  requestedNamespaces r =
  map strings.TrimSpace (strings.Split (effectiveNamespaces r) ",").
Proof. reflexivity. Qed.

Lemma requestedNamespaces_not_nil r : requestedNamespaces r <> [].
Proof.
  rewrite requestedNamespaces_eq.
  pose proof (Split_not_nil (effectiveNamespaces r) ",") as Hne.
  by destruct (strings.Split _ _).
Qed.

(** A descriptor that is returned holds exactly the requested namespaces,
    and all of them are accessible. *)
Lemma NewOptions_Ok_namespaces `{Platform} (env : Env) r n o n' :
  NewOptions env r n = Ok (o, n') ->
  exists accessible,
    authorizedSet env r = Some accessible /\
    (forall k, k ∈ requestedNamespaces r -> is_Some (accessible !! k)) /\
    (forall k, is_Some (Namespaces o !! k) <-> k ∈ requestedNamespaces r).
Proof.
  intros Hrun.
  apply NewOptions_Ok_inv in Hrun as (_ & accessible & Hauth & Hres).
  apply resolution_Ok_inv in Hres
    as (queryTime & n1 & namespaceMap & appenders & _ & Hloop & _ & ->).
  exists accessible. split; [done|].
  pose proof (namespaceLoop_spec env accessible (resolvedDuration r) queryTime
                (strings.Split (effectiveNamespaces r) ",") ∅ n1) as Hspec.
  fold (requestedNamespaces r) in Hspec. 
  destruct (firstMissing accessible (requestedNamespaces r)) eqn:Hfirst;
    [congruence|].
  destruct Hspec as (m' & n2 & Hrun & Hdom).
  rewrite Hloop in Hrun. injection Hrun as <- <-.
  split; [by apply firstMissing_None|].
  intros k. simpl. rewrite Hdom, lookup_empty. split; [|by right].
  intros [[? ?]|?]; done.
Qed.

Lemma parametersValid_checks `{Platform} (r : Request) :
  parametersValid r =
  durationValid r && (graphTypeValid r && (appGraphTypeValid r &&
  (groupByValid r && (includeIstioValid r && (injectServiceNodesValid r &&
  (queryTimeValid r && (vendorValid r &&
  negb (String.eqb (effectiveNamespaces r) "")))))))).
Proof. reflexivity. Qed.

(** The next check of [NewOptions] fails with the message of the goal. *)
Ltac check_fails :=
  match goal with
  | |- bind ?X _ _ = Panic (BadRequest ?m) =>
      let Hs := fresh "Hstep" in
      assert (Hs : X = graph.BadRequest m) by solve_step;
      rewrite Hs; reflexivity
  end.

Ltac check c v :=
  let Hc := fresh "Hcheck" in
  destruct c eqn:Hc; cbn [negb];
  unfold durationValid, graphTypeValid, appGraphTypeValid, groupByValid,
    includeIstioValid, injectServiceNodesValid in Hc;
  [ step v | check_fails ].

(** [NewOptions] in two halves: the first check that fails decides the
    failure; when none does, the rest of the function runs on the resolved
    parameters. *)
Lemma NewOptions_parameters `{Platform} (env : Env) (r : Request) n :
  NewOptions env r n =
  match firstParameterError r with
  | Some message => Panic (BadRequest message)
  | None => afterParameters env r n
  end.
Proof.
  unfold NewOptions, firstParameterError, afterParameters. cbv zeta.
  check (durationValid r) (resolvedDuration r).
  check (graphTypeValid r) (resolvedGraphType r).
  check (appGraphTypeValid r) tt.
  check (groupByValid r) (resolvedGroupBy r).
  check (includeIstioValid r)
    (resolvedBool (Get (Query r) "includeIstio") defaultIncludeIstio).
  check (injectServiceNodesValid r)
    (resolvedBool (Get (Query r) "injectServiceNodes") defaultInjectServiceNodes).
  destruct (queryTimeValid r) eqn:Hq; cbn [negb]; unfold queryTimeValid in Hq;
    [|check_fails].
  match goal with
  | |- bind ?X _ _ = _ =>
      assert (Hs : X = resolvedQueryTime env r) by solve_step;
      rewrite Hs; clear Hs
  end.
  destruct (vendorValid r) eqn:Hv; cbn [negb]; unfold vendorValid in Hv.
  - apply bind_ext. intros queryTime n1.
    step (resolvedVendor r). reflexivity.
  - destruct (resolvedQueryTime_Ok env r n) as (queryTime & n1 & Hrun).
    rewrite (bind_Ok _ _ _ _ _ Hrun). check_fails.
Qed.

Ltac bad_or_step v :=
  match goal with
  | |- exists _, bind ?X _ _ = _ =>
      let Hd := fresh "Hd" in
      let m := fresh "message" in
      assert (Hd : X = ret v \/ (exists m, X = graph.BadRequest m))
        by solve_panic_dich;
      destruct Hd as [Hd|[m Hd]]; rewrite Hd;
      [ rewrite bind_ret; clear Hd | by exists m ]
  end.

(** An app node graph with a graph type other than app and versionedApp is
    refused, whatever else the request holds. *)
Lemma app_graphType_BadRequest `{Platform} (env : Env) (r : Request) n :
  index (Vars r) "app" <> "" ->
  Get (Query r) "graphType" <> graph.GraphTypeApp ->
  Get (Query r) "graphType" <> graph.GraphTypeVersionedApp ->
  exists message, NewOptions env r n = Panic (BadRequest message).
Proof.
  intros Happ Hgt1 Hgt2. unfold NewOptions. cbv zeta.
  bad_or_step (resolvedDuration r).
  bad_or_step (resolvedGraphType r).
  assert (Hcheck : (index (Vars r) "app" !=? "") &&
                   (resolvedGraphType r !=? graph.GraphTypeApp) &&
                   (resolvedGraphType r !=? graph.GraphTypeVersionedApp) = true).
  { rewrite !andb_true_iff, !eqb_neq_true. unfold resolvedGraphType.
    destruct (String.eqb_spec (Get (Query r) "graphType") ""); done. }
  rewrite Hcheck. by eexists.
Qed.



Lemma succeeds_Ok {A} (x : Result A) : succeeds x = true -> exists a, x = Ok a.
Proof. destruct x as [a|f]; [by exists a|done]. Qed.

Lemma failureOf_Panic {A} (x : Result A) f : failureOf x = Some f -> x = Panic f.
Proof. destruct x as [a|f']; [done|]. by intros [= ->]. Qed.

(** Two runs whose continuations fail alike fail alike. *)
Lemma failureOf_bind {A B C} (x : M A) (k : A -> M B) (k' : A -> M C) n :
  (forall a n1, failureOf (k a n1) = failureOf (k' a n1)) ->
  failureOf (bind x k n) = failureOf (bind x k' n).
Proof.
  intros Hk. unfold bind. destruct (x n) as [[a n1]|f]; [apply Hk|done].
Qed.

(** Past the checks of the single parameters, the path variables app,
    service, version and workload are copied into the descriptor, and
    nothing that can fail reads them. *)
Lemma afterParameters_failure `{Platform} (env : Env) (r r' : Request) n :
  index (Vars r') "namespace" = index (Vars r) "namespace" ->
  Query r' = Query r ->
  ContextToken r' = ContextToken r ->
  failureOf (afterParameters env r' n) = failureOf (afterParameters env r n).
Proof.
  intros Hns Hquery Htoken.
  unfold afterParameters, resolvedQueryTime, resolvedDuration, effectiveNamespaces.
  rewrite Hns, Hquery, Htoken.
  do 5 (apply failureOf_bind; intros ? ?).
  rewrite !parseAppenders_spec.
  destruct (has (Query r) "appenders"); [destruct (firstUnrecognized _)|];
    reflexivity.
Qed.

(** The graph types the first check of the graphType parameter accepts. *)
Lemma graphTypeValid_types (r : Request) :
  resolvedGraphType r ∈ [graph.GraphTypeApp; graph.GraphTypeService;
                         graph.GraphTypeVersionedApp; graph.GraphTypeWorkload] ->
  graphTypeValid r = true.
Proof.
  unfold graphTypeValid, resolvedGraphType. cbv zeta.
  destruct (String.eqb (Get (Query r) "graphType") ""); [done|].
  rewrite !elem_of_cons, elem_of_nil.
  intros [-> | [-> | [-> | [-> | []]]]]; reflexivity.
Qed.


(** *** The graph type of a node graph *)

(** C3, as amended: a request whose app path variable is set is refused with
    BadRequest unless its graphType is app or versionedApp, whatever else it
    holds (an absent graphType stands for workload, and is refused as well).
    The service, version and workload path variables carry no such rule.
    A request that passes the other checks, and whose app is not set or
    whose graph type is app or versionedApp, is resolved to a descriptor of
    its graph type, be that app, service, versionedApp or workload, whatever
    the three variables hold, and the descriptor holds them; and while app
    is not set, whether a request is refused, and with which failure, does
    not depend on the three variables at all. *)
Theorem app_node_graph_needs_app_graphType `{Platform} (env : Env) (r : Request) n :
  (index (Vars r) "app" <> "" ->
   Get (Query r) "graphType" <> graph.GraphTypeApp ->
   Get (Query r) "graphType" <> graph.GraphTypeVersionedApp ->
   exists message, NewOptions env r n = Panic (BadRequest message)) /\
  (index (Vars r) "app" = "" \/
   resolvedGraphType r = graph.GraphTypeApp \/
   resolvedGraphType r = graph.GraphTypeVersionedApp ->
   forall accessible,
     resolvedGraphType r ∈ [graph.GraphTypeApp; graph.GraphTypeService;
                            graph.GraphTypeVersionedApp; graph.GraphTypeWorkload] ->
     durationValid r = true ->
     groupByValid r = true ->
     includeIstioValid r = true ->
     injectServiceNodesValid r = true ->
     queryTimeValid r = true ->
     vendorValid r = true ->
     authorizedSet env r = Some accessible ->
     effectiveNamespaces r <> "" ->
     firstMissing accessible (requestedNamespaces r) = None ->
     firstUnrecognized (requestedNames (Query r)) = None ->
     exists o n',
       NewOptions env r n = Ok (o, n') /\
       GraphType (vendorOptions o) = resolvedGraphType r /\
       Service (nodeOptions o) = index (Vars r) "service" /\
       Version (nodeOptions o) = index (Vars r) "version" /\
       Workload (nodeOptions o) = index (Vars r) "workload") /\
  (index (Vars r) "app" = "" ->
   forall r' : Request,
     index (Vars r') "app" = "" ->
     index (Vars r') "namespace" = index (Vars r) "namespace" ->
     Query r' = Query r ->
     ContextToken r' = ContextToken r ->
     failureOf (NewOptions env r' n) = failureOf (NewOptions env r n)).
Proof.
  split; [apply app_graphType_BadRequest|]. split.
  - intros Happ accessible Hgt Hd Hgb Hii Hisn Hqt Hv Hauth Hne Hmiss Happenders.
    assert (Hvalid : parametersValid r = true).
    { rewrite parametersValid_checks, Hd, Hgb, Hii, Hisn, Hqt, Hv.
      rewrite (graphTypeValid_types r Hgt).
      assert (appGraphTypeValid r = true) as ->.
      { unfold appGraphTypeValid.
        destruct Happ as [-> | [-> | ->]]; [reflexivity| |];
          by destruct (index (Vars r) "app" !=? ""). }
      cbn [andb]. apply negb_true_iff. by apply String.eqb_neq. }
    rewrite (NewOptions_valid env r accessible n Hvalid Hauth).
    unfold resolution.
    destruct (resolvedQueryTime_Ok env r n) as (queryTime & n1 & Hq).
    rewrite (bind_Ok _ _ _ _ _ Hq).
    pose proof (namespaceLoop_spec env accessible (resolvedDuration r) queryTime
                  (strings.Split (effectiveNamespaces r) ",") ∅ n1) as Hloop.
    fold (requestedNamespaces r) in Hloop. rewrite Hmiss in Hloop.
    destruct Hloop as (namespaceMap & n2 & Hloop & _).
    rewrite (bind_Ok _ _ _ _ _ Hloop).
    rewrite parseAppenders_spec, Happenders.
    destruct (has (Query r) "appenders"); cbn [lift];
      rewrite (bind_Ok _ _ _ _ n2 eq_refl); by eexists _, _.
  - intros Happ r' Happ' Hns Hquery Htoken.
    rewrite !NewOptions_parameters.
    assert (firstParameterError r' = firstParameterError r) as ->.
    { unfold firstParameterError, durationValid, graphTypeValid,
        appGraphTypeValid, groupByValid, includeIstioValid,
        injectServiceNodesValid, queryTimeValid, vendorValid, resolvedGraphType.
      by rewrite Hquery, Happ, Happ'. }
    destruct (firstParameterError r); [reflexivity|].
    by apply afterParameters_failure.
Qed.

(** The runs of C3 on the namespace bookinfo with graphType=workload: the
    app reviews is refused; the request that sets service, version and
    workload at once is resolved to a workload graph; and it fails or
    succeeds as the request without the three variables does. *)
Lemma app_node_graph_needs_app_graphType_witness :
  (exists message,
     @NewOptions reference.platform reference.env
       (reference.request [("app", "reviews"); ("namespace", "bookinfo")]
                          [("graphType", "workload")]) 0%nat
     = Panic (BadRequest message)) /\
  (exists o n',
     @NewOptions reference.platform reference.env
       (reference.request [("service", "reviews"); ("version", "v1");
                           ("workload", "reviews-v1"); ("namespace", "bookinfo")]
                          [("graphType", "workload")]) 0%nat
     = Ok (o, n') /\
     GraphType (vendorOptions o) = graph.GraphTypeWorkload /\
     Service (nodeOptions o) = "reviews" /\
     Version (nodeOptions o) = "v1" /\
     Workload (nodeOptions o) = "reviews-v1") /\
  failureOf (@NewOptions reference.platform reference.env
               (reference.request [("namespace", "bookinfo")]
                                  [("graphType", "workload")]) 0%nat)
  = failureOf (@NewOptions reference.platform reference.env
                 (reference.request [("service", "reviews"); ("version", "v1");
                                     ("workload", "reviews-v1");
                                     ("namespace", "bookinfo")]
                                    [("graphType", "workload")]) 0%nat).
Proof.
  split; [|split].
  - apply (proj1 (@app_node_graph_needs_app_graphType reference.platform
                    reference.env
                    (reference.request
                       [("app", "reviews"); ("namespace", "bookinfo")]
                       [("graphType", "workload")]) 0%nat));
      vm_compute; congruence.
  - refine (proj1 (proj2 (@app_node_graph_needs_app_graphType reference.platform
                    reference.env
                    (reference.request
                       [("service", "reviews"); ("version", "v1");
                        ("workload", "reviews-v1"); ("namespace", "bookinfo")]
                       [("graphType", "workload")]) 0%nat))
              (or_introl _)
              (list_to_map [("bookinfo", reference.Unix 1500000000 0);
                            ("istio-system", reference.Build_WallTime 0 0)])
              _ _ _ _ _ _ _ _ _ _ _).
    + reflexivity.
    + change (graph.GraphTypeWorkload ∈
                [graph.GraphTypeApp; graph.GraphTypeService;
                 graph.GraphTypeVersionedApp; graph.GraphTypeWorkload]).
      rewrite !elem_of_cons. tauto.
    + reflexivity.
    + reflexivity.
    + reflexivity.
    + reflexivity.
    + reflexivity.
    + reflexivity.
    + vm_compute. reflexivity.
    + vm_compute. congruence.
    + vm_compute. reflexivity.
    + vm_compute. reflexivity.
  - refine (proj2 (proj2 (@app_node_graph_needs_app_graphType reference.platform
                    reference.env
                    (reference.request
                       [("service", "reviews"); ("version", "v1");
                        ("workload", "reviews-v1"); ("namespace", "bookinfo")]
                       [("graphType", "workload")]) 0%nat))
              _
              (reference.request [("namespace", "bookinfo")]
                                 [("graphType", "workload")])
              _ _ _ _); reflexivity.
Defined.


(** C3 as the spec states it fails: the workload path variable is a node
    selector field, the graph type is workload, and the request is resolved
    to a descriptor all the same. *)
Lemma workload_node_graph_accepted :
  index (Vars (reference.request
                 [("workload", "reviews-v1"); ("namespace", "bookinfo")]
                 [("graphType", "workload")])) "workload" <> "" /\
  Get (Query (reference.request
                [("workload", "reviews-v1"); ("namespace", "bookinfo")]
                [("graphType", "workload")])) "graphType"
  = graph.GraphTypeWorkload /\
  exists o n',
    @NewOptions reference.platform reference.env
      (reference.request [("workload", "reviews-v1"); ("namespace", "bookinfo")]
                         [("graphType", "workload")]) 0%nat
    = Ok (o, n').
Proof.
  split; [vm_compute; congruence|]. split; [vm_compute; reflexivity|].
  destruct (succeeds_Ok
              (@NewOptions reference.platform reference.env
                 (reference.request
                    [("workload", "reviews-v1"); ("namespace", "bookinfo")]
                    [("graphType", "workload")]) 0%nat))
    as [[o n'] Hrun]; [vm_compute; reflexivity|].
  by exists o, n'.
Qed.

(** *** Service graphs *)

(** C5: a descriptor returned for a request with graphType=service has
    [InjectServiceNodes] set, whatever the injectServiceNodes parameter
    says. *)
Theorem service_graph_injects_service_nodes `{Platform} (env : Env)
    (r : Request) n o n' :
  NewOptions env r n = Ok (o, n') ->
  Get (Query r) "graphType" = graph.GraphTypeService ->
  InjectServiceNodes o = true.
Proof.
  intros Hrun Hgt.
  apply NewOptions_Ok_inv in Hrun as (_ & accessible & _ & Hres).
  apply resolution_Ok_inv in Hres
    as (queryTime & n1 & namespaceMap & appenders & _ & _ & _ & ->).
  simpl. unfold resolvedGraphType. by rewrite Hgt.
Qed.

(** The run of C5 on a request that asks for injectServiceNodes=false. *)
Lemma service_graph_injects_service_nodes_witness :
  exists o n',
    @NewOptions reference.platform reference.env
      (reference.request [] [("namespaces", "bookinfo"); ("graphType", "service");
                             ("injectServiceNodes", "false")]) 0%nat
    = Ok (o, n') /\ InjectServiceNodes o = true.
Proof.
  destruct (succeeds_Ok
              (@NewOptions reference.platform reference.env
                 (reference.request
                    [] [("namespaces", "bookinfo"); ("graphType", "service");
                        ("injectServiceNodes", "false")]) 0%nat))
    as [[o n'] Hrun]; [vm_compute; reflexivity|].
  exists o, n'. split; [exact Hrun|].
  apply (@service_graph_injects_service_nodes reference.platform reference.env
           _ _ _ _ Hrun).
  vm_compute. reflexivity.
Defined.

(** *** The target namespaces *)

(** C7: a descriptor that is returned has a target namespace map that is
    not empty: it holds at least one entry. *)
Theorem descriptor_namespaces_not_empty `{Platform} (env : Env) (r : Request)
    n o n' :
  NewOptions env r n = Ok (o, n') ->
  Namespaces o <> ∅ /\
  exists namespace info, Namespaces o !! namespace = Some info.
Proof.
  intros Hrun.
  apply NewOptions_Ok_namespaces in Hrun as (accessible & _ & _ & Hdom).
  pose proof (requestedNamespaces_not_nil r) as Hne.
  destruct (requestedNamespaces r) as [|k rest] eqn:Hreq; [done|].
  destruct (proj2 (Hdom k)) as [info Hinfo]; [by left|].
  split; [|by exists k, info].
  intros Hempty. rewrite Hempty, lookup_empty in Hinfo. done.
Qed.

(** The run of C7 on a request for two namespaces. *)
Lemma descriptor_namespaces_not_empty_witness :
  exists o n',
    @NewOptions reference.platform reference.env
      (reference.request [] [("namespaces", "bookinfo, istio-system")]) 0%nat
    = Ok (o, n') /\ Namespaces o <> ∅.
Proof.
  destruct (succeeds_Ok
              (@NewOptions reference.platform reference.env
                 (reference.request
                    [] [("namespaces", "bookinfo, istio-system")]) 0%nat))
    as [[o n'] Hrun]; [vm_compute; reflexivity|].
  exists o, n'. split; [exact Hrun|].
  exact (proj1 (@descriptor_namespaces_not_empty reference.platform
                  reference.env _ _ _ _ Hrun)).
Defined.

Lemma firstMissing_exists {A} (m : gmap string A) l x :
  x ∈ l -> m !! x = None -> exists first, firstMissing m l = Some first.
Proof.
  intros Hin Hnone.
  destruct (firstMissing m l) as [first|] eqn:Hfirst; [by eexists|].
  rewrite firstMissing_None in Hfirst.
  destruct (Hfirst x Hin) as [v Hv]. congruence.
Qed.

Lemma resolution_Forbidden `{Platform} (env : Env) r accessible n first :
  firstMissing accessible (requestedNamespaces r) = Some first ->
  resolution env r accessible n = Panic (Forbidden (notAccessible first)).
Proof.
  intros Hfirst. unfold resolution.
  destruct (resolvedQueryTime_Ok env r n) as (queryTime & n1 & Hq).
  rewrite (bind_Ok _ _ _ _ _ Hq).
  apply bind_Panic.
  pose proof (namespaceLoop_spec env accessible (resolvedDuration r) queryTime
                (strings.Split (effectiveNamespaces r) ",") ∅ n1) as Hspec.
  fold (requestedNamespaces r) in Hspec. by rewrite Hfirst in Hspec.
Qed.

(** C6, as amended: when a namespace the request asks for (through the
    namespace path variable when that is set, else through the namespaces
    parameter; trimmed) is not in the caller's authorized set, no descriptor
    is returned.  If the parameter resolver accepts the request, the failure
    is Forbidden and names the first requested namespace, in the order of
    the request, that is not authorized; if it does not, its BadRequest
    comes first. *)
Theorem unauthorized_namespace_refused `{Platform} (env : Env) (r : Request) n
    accessible namespace :
  authorizedSet env r = Some accessible ->
  namespace ∈ requestedNamespaces r ->
  accessible !! namespace = None ->
  exists first,
    firstMissing accessible (requestedNamespaces r) = Some first /\
    first ∈ requestedNamespaces r /\
    accessible !! first = None /\
    (forall res, NewOptions env r n <> Ok res) /\
    (parametersValid r = true ->
     NewOptions env r n = Panic (Forbidden (notAccessible first))) /\
    (parametersValid r = false ->
     exists message, NewOptions env r n = Panic (BadRequest message)).
Proof.
  intros Hauth Hin Hnone.
  destruct (firstMissing_exists accessible _ _ Hin Hnone) as [first Hfirst].
  exists first. split; [done|].
  destruct (firstMissing_Some _ _ _ Hfirst) as [Hfin Hfnone].
  repeat split; try done.
  - intros [o n'] Hrun.
    apply NewOptions_Ok_namespaces in Hrun as (accessible' & Hauth' & Hall & _).
    rewrite Hauth in Hauth'. injection Hauth' as <-.
    destruct (Hall namespace Hin) as [v Hv]. congruence.
  - intros Hvalid. rewrite (NewOptions_valid env r accessible n Hvalid Hauth).
    by apply resolution_Forbidden.
  - intros Hinvalid. by apply (NewOptions_invalid env r accessible).
Qed.

(** The run of C6 on a request for bookinfo and for ghost, a namespace the
    cluster does not have. *)
Lemma unauthorized_namespace_refused_witness :
  @NewOptions reference.platform reference.env
    (reference.request [] [("namespaces", "bookinfo, ghost")]) 0%nat
  = Panic (Forbidden "Requested namespace [ghost] is not accessible.").
Proof.
  destruct (@unauthorized_namespace_refused reference.platform reference.env
              (reference.request [] [("namespaces", "bookinfo, ghost")]) 0%nat
              (list_to_map [("bookinfo", reference.Unix 1500000000 0);
                            ("istio-system", reference.Build_WallTime 0 0)])
              "ghost")
    as (first & Hfirst & _ & _ & _ & Hforbidden & _).
  - vm_compute. reflexivity.
  - change ("ghost" ∈ ["bookinfo"; "ghost"]).
    apply elem_of_cons. right. apply elem_of_cons. by left.
  - vm_compute. reflexivity.
  - vm_compute in Hfirst. injection Hfirst as <-.
    apply Hforbidden. vm_compute. reflexivity.
Defined.

(** C6 as the spec states it fails twice.  A request that names the
    unauthorized namespace ghost and gives a duration that does not parse
    fails with BadRequest, not with Forbidden; and for a request that names
    two unauthorized namespaces, ghost and phantom, the Forbidden failure
    names ghost and says nothing of phantom. *)
Lemma earlier_failure_wins :
  ("ghost" ∈ requestedNamespaces
               (reference.request [] [("namespaces", "ghost"); ("duration", "soon")]) /\
   (exists accessible,
      @authorizedSet reference.platform reference.env
        (reference.request [] [("namespaces", "ghost"); ("duration", "soon")])
      = Some accessible /\ accessible !! "ghost" = None) /\
   @NewOptions reference.platform reference.env
     (reference.request [] [("namespaces", "ghost"); ("duration", "soon")]) 0%nat
   = Panic (BadRequest "Invalid duration [soon]")) /\
  ("phantom" ∈ requestedNamespaces
                 (reference.request [] [("namespaces", "ghost,phantom")]) /\
   (exists accessible,
      @authorizedSet reference.platform reference.env
        (reference.request [] [("namespaces", "ghost,phantom")])
      = Some accessible /\ accessible !! "phantom" = None) /\
   @NewOptions reference.platform reference.env
     (reference.request [] [("namespaces", "ghost,phantom")]) 0%nat
   = Panic (Forbidden "Requested namespace [ghost] is not accessible.")).
Proof.
  split; (split; [|split]).
  - change ("ghost" ∈ ["ghost"]). by apply list_elem_of_singleton.
  - eexists. split; [reflexivity|]. vm_compute. reflexivity.
  - apply failureOf_Panic. vm_compute. reflexivity.
  - change ("phantom" ∈ ["ghost"; "phantom"]).
    apply elem_of_cons. right. apply elem_of_cons. by left.
  - eexists. split; [reflexivity|]. vm_compute. reflexivity.
  - apply failureOf_Panic. vm_compute. reflexivity.
Qed.

(** *** The end-to-end example of a node graph *)

Lemma UnusedNode_in_assemble `{Platform} sel q (o : Options) :
  sel UnusedNode = true ->
  appender.UnusedNodeAppender (GraphType (vendorOptions o))
    ((App (nodeOptions o) !=? "") || (Workload (nodeOptions o) !=? "") ||
     (Service (nodeOptions o) !=? "")) ∈ assemble sel q o.
Proof.
  intros Hsel. unfold assemble. rewrite Hsel, !elem_of_app.
  do 4 right. left. by apply list_elem_of_singleton.
Qed.

(** C9, as amended: the request with the path variables app=reviews and
    namespace=bookinfo and the parameter graphType=service is refused with
    BadRequest, since an app node graph takes the graph types app and
    versionedApp only.  The same request for the service reviews, with
    bookinfo authorized, is resolved to a descriptor of a node graph with
    [InjectServiceNodes] set and an UnusedNode stage that has [IsNodeGraph]
    set. *)
Theorem app_node_graph_of_service_type `{Platform} :
  (forall (env : Env) (r : Request) n,
      Vars r = list_to_map [("app", "reviews"); ("namespace", "bookinfo")] ->
      Query r = list_to_map [("graphType", ["service"])] ->
      NewOptions env r n =
      Panic (BadRequest
               "Invalid graphType [service]. This node detail graph supports only graphType app or versionedApp.")) /\
  (forall (env : Env) (r : Request) n accessible created,
      Vars r = list_to_map [("service", "reviews"); ("namespace", "bookinfo")] ->
      Query r = list_to_map [("graphType", ["service"])] ->
      authorizedSet env r = Some accessible ->
      accessible !! "bookinfo" = Some created ->
      exists o n',
        NewOptions env r n = Ok (o, n') /\
        GetGraphKind o = graphKindNode /\
        InjectServiceNodes o = true /\
        appender.UnusedNodeAppender graph.GraphTypeService true ∈ Appenders o).
Proof.
  split.
  - intros env [vars query token] n Hvars Hquery. simpl in *. subst.
    reflexivity.
  - intros env r n accessible created Hvars Hquery Hauth Hacc.
    assert (Hvalid : parametersValid r = true).
    { unfold parametersValid, resolvedGraphType, effectiveNamespaces.
      rewrite Hvars, Hquery. reflexivity. }
    rewrite (NewOptions_valid env r accessible n Hvalid Hauth).
    unfold resolution.
    destruct (resolvedQueryTime_Ok env r n) as (queryTime & n1 & Hq).
    rewrite (bind_Ok _ _ _ _ _ Hq).
    pose proof (namespaceLoop_spec env accessible (resolvedDuration r) queryTime
                  (strings.Split (effectiveNamespaces r) ",") ∅ n1) as Hloop.
    assert (Hfirst : firstMissing accessible
              (map strings.TrimSpace (strings.Split (effectiveNamespaces r) ","))
              = None).
    { unfold effectiveNamespaces. rewrite Hvars, Hquery.
      change (firstMissing accessible ["bookinfo"] = None).
      simpl. unfold has. by rewrite Hacc. }
    rewrite Hfirst in Hloop. destruct Hloop as (namespaceMap & n2 & Hloop & _).
    rewrite (bind_Ok _ _ _ _ _ Hloop).
    rewrite parseAppenders_spec.
    assert (Hhas : has (Query r) "appenders" = false)
      by (rewrite Hquery; reflexivity).
    rewrite Hhas. cbn [lift]. rewrite (bind_Ok _ _ _ _ n2 eq_refl).
    eexists _, _. split; [reflexivity|].
    assert (Hservice : index (Vars r) "service" = "reviews")
      by (rewrite Hvars; reflexivity).
    assert (Hgt : resolvedGraphType r = graph.GraphTypeService)
      by (unfold resolvedGraphType; rewrite Hquery; reflexivity).
    repeat split.
    + unfold GetGraphKind. simpl. rewrite Hservice.
      by rewrite !orb_true_r.
    + simpl. by rewrite Hgt.
    + simpl.
      pose proof (UnusedNode_in_assemble (fun _ => true)
                    (responseTimeQuantile (Query r))
                    (descriptor r accessible queryTime namespaceMap []) eq_refl)
        as Hin.
      simpl in Hin. rewrite Hservice, Hgt in Hin.
      by rewrite !orb_true_r in Hin.
Qed.

(** The run of C9 on the service reviews of bookinfo. *)
Lemma app_node_graph_of_service_type_witness :
  exists o n',
    @NewOptions reference.platform reference.env
      (reference.request [("service", "reviews"); ("namespace", "bookinfo")]
                         [("graphType", "service")]) 0%nat
    = Ok (o, n') /\
    GetGraphKind o = graphKindNode /\
    InjectServiceNodes o = true /\
    appender.UnusedNodeAppender graph.GraphTypeService true ∈ Appenders o.
Proof.
  apply (proj2 (@app_node_graph_of_service_type reference.platform)
           reference.env
           (reference.request [("service", "reviews"); ("namespace", "bookinfo")]
                              [("graphType", "service")])
           0%nat
           (list_to_map [("bookinfo", reference.Unix 1500000000 0);
                         ("istio-system", reference.Build_WallTime 0 0)])
           (reference.Unix 1500000000 0)).
  - reflexivity.
  - reflexivity.
  - vm_compute. reflexivity.
  - vm_compute. reflexivity.
Defined.

(** C9 as the spec states it fails: the request of the example is not
    resolved, it is refused with BadRequest. *)
Lemma app_reviews_service_graph_refused :
  @NewOptions reference.platform reference.env
    (reference.request [("app", "reviews"); ("namespace", "bookinfo")]
                       [("graphType", "service")]) 0%nat
  = Panic (BadRequest
             "Invalid graphType [service]. This node detail graph supports only graphType app or versionedApp.").
Proof. apply failureOf_Panic. vm_compute. reflexivity. Qed.

(** *** The namespace path variable *)

Lemma Get_ext (q q' : Values) key : q' !! key = q !! key -> Get q' key = Get q key.
Proof. unfold Get. by intros ->. Qed.

Lemma has_ext {A} (q q' : gmap string A) key :
  q' !! key = q !! key -> has q' key = has q key.
Proof. unfold has. by intros ->. Qed.

(** [NewOptions] reads a request through its path variables, its token,
    the parameters it knows, and the namespaces it asks for. *)
Lemma NewOptions_ext `{Platform} (env : Env) (r r' : Request) n :
  Vars r' = Vars r ->
  ContextToken r' = ContextToken r ->
  (forall key, key <> "namespaces" -> Query r' !! key = Query r !! key) ->
  effectiveNamespaces r' = effectiveNamespaces r ->
  NewOptions env r' n = NewOptions env r n.
Proof.
  intros Hvars Htoken Hquery Hns.
  unfold NewOptions, parseAppenders, responseTimeQuantile. cbv zeta.
  unfold effectiveNamespaces in Hns. rewrite Hvars in Hns |- *.
  rewrite Hns, Htoken.
  rewrite (Get_ext (Query r) (Query r') "duration") by (by apply Hquery).
  rewrite (Get_ext (Query r) (Query r') "graphType") by (by apply Hquery).
  rewrite (Get_ext (Query r) (Query r') "groupBy") by (by apply Hquery).
  rewrite (Get_ext (Query r) (Query r') "includeIstio") by (by apply Hquery).
  rewrite (Get_ext (Query r) (Query r') "injectServiceNodes") by (by apply Hquery).
  rewrite (Get_ext (Query r) (Query r') "queryTime") by (by apply Hquery).
  rewrite (Get_ext (Query r) (Query r') "vendor") by (by apply Hquery).
  rewrite (Get_ext (Query r) (Query r') "appenders") by (by apply Hquery).
  rewrite (Get_ext (Query r) (Query r') "responseTimeQuantile") by (by apply Hquery).
  rewrite (has_ext (Query r) (Query r') "appenders") by (by apply Hquery).
  rewrite (has_ext (Query r) (Query r') "responseTimeQuantile") by (by apply Hquery).
  reflexivity.
Qed.

(** C10: when the namespace path variable is not empty, the namespaces
    query parameter is not read: two requests that differ in that parameter
    only are resolved alike, to the same descriptor or the same failure; the
    namespaces asked for are those of the path variable, and they are the
    target namespaces of the descriptor. *)
Theorem namespaces_parameter_ignored `{Platform} (env : Env) (r r' : Request) n :
  index (Vars r) "namespace" <> "" ->
  Vars r' = Vars r ->
  ContextToken r' = ContextToken r ->
  (forall key, key <> "namespaces" -> Query r' !! key = Query r !! key) ->
  NewOptions env r' n = NewOptions env r n /\
  requestedNamespaces r =
    map strings.TrimSpace (strings.Split (index (Vars r) "namespace") ",") /\
  (forall o n', NewOptions env r n = Ok (o, n') ->
     forall k, is_Some (Namespaces o !! k) <->
               k ∈ map strings.TrimSpace
                     (strings.Split (index (Vars r) "namespace") ",")).
Proof.
  intros Hns Hvars Htoken Hquery.
  assert (Heff : effectiveNamespaces r = index (Vars r) "namespace").
  { unfold effectiveNamespaces. apply eqb_neq_true in Hns. by rewrite Hns. }
  assert (Hreq : requestedNamespaces r =
    map strings.TrimSpace (strings.Split (index (Vars r) "namespace") ",")).
  { unfold requestedNamespaces. by rewrite Heff. }
  split; [|split; [done|]].
  - apply NewOptions_ext; try done.
    rewrite Heff. unfold effectiveNamespaces. rewrite Hvars.
    apply eqb_neq_true in Hns. by rewrite Hns.
  - intros o n' Hrun.
    apply NewOptions_Ok_namespaces in Hrun as (accessible & _ & _ & Hdom).
    intros k. by rewrite Hdom, Hreq.
Qed.

(** The run of C10 on the node graph of bookinfo, with and without a
    namespaces parameter that names a namespace nobody may see: both are
    resolved, and alike. *)
Lemma namespaces_parameter_ignored_witness :
  @NewOptions reference.platform reference.env
    (reference.request [("namespace", "bookinfo")] [("namespaces", "ghost")]) 0%nat
  = @NewOptions reference.platform reference.env
      (reference.request [("namespace", "bookinfo")] []) 0%nat /\
  succeeds (@NewOptions reference.platform reference.env
              (reference.request [("namespace", "bookinfo")]
                                 [("namespaces", "ghost")]) 0%nat) = true.
Proof.
  split; [|vm_compute; reflexivity].
  destruct (@namespaces_parameter_ignored reference.platform reference.env
           (reference.request [("namespace", "bookinfo")] [])
           (reference.request [("namespace", "bookinfo")] [("namespaces", "ghost")])
           0%nat) as [Heq _].
  - vm_compute. congruence.
  - reflexivity.
  - reflexivity.
  - intros key Hkey. unfold reference.request, Query.
    cbn [map list_to_map foldr fst snd uncurry].
    rewrite lookup_insert_ne by done. reflexivity.
  - exact Heq.
Defined.

(** ** Further properties *)

(** *** The order of the parameter checks *)

(** X1: the checks of the single parameters are made in the order duration,
    graphType, graphType of an app node graph, groupBy, includeIstio,
    injectServiceNodes, queryTime, vendor, and the first that fails decides
    the BadRequest failure: it is the same in every environment, whatever
    the token, the gateway, the clock and the namespaces of the request
    are.  So a duration that does not parse is reported whatever else is
    wrong with the request. *)
Theorem first_parameter_error_wins `{Platform} (r : Request) message :
  firstParameterError r = Some message ->
  (forall (env : Env) n, NewOptions env r n = Panic (BadRequest message)) /\
  (durationValid r = false ->
   message = "Invalid duration [" +:+ Get (Query r) "duration" +:+ "]").
Proof.
  intros Hfirst. split.
  - intros env n. by rewrite NewOptions_parameters, Hfirst.
  - intros Hd. unfold firstParameterError in Hfirst. rewrite Hd in Hfirst.
    cbn [negb] in Hfirst. by injection Hfirst as <-.
Qed.

(** The run of X1 on a request whose duration, graph type and vendor are
    all refused, and which names a namespace nobody may see. *)
Lemma first_parameter_error_wins_witness :
  @NewOptions reference.platform reference.env
    (reference.request [] [("duration", "soon"); ("graphType", "tree");
                           ("vendor", "dot"); ("namespaces", "ghost")]) 0%nat
  = Panic (BadRequest "Invalid duration [soon]").
Proof.
  apply (@first_parameter_error_wins reference.platform
           (reference.request [] [("duration", "soon"); ("graphType", "tree");
                                  ("vendor", "dot"); ("namespaces", "ghost")])).
  vm_compute. reflexivity.
Defined.

(** *** The token and the gateway *)

(** X2: when the single parameters pass their checks, a request without a
    token, or with a token that is no string, fails with an internal error,
    and so does one for which [business.Get] or [GetNamespaces] returns an
    error, with the error's message; the namespaces of the request are not
    looked at before, so this holds with none given. *)
Theorem token_and_gateway_failures `{Platform} (env : Env) (r : Request) n :
  firstParameterError r = None ->
  (ContextToken r = CtxNil ->
   NewOptions env r n = Panic (Internal "token missing in request context")) /\
  (ContextToken r = CtxOther ->
   NewOptions env r n = Panic (Internal "token is not of type string")) /\
  (forall token message,
     ContextToken r = CtxString token ->
     business_Get env token = inl message ->
     NewOptions env r n = Panic (Internal message)) /\
  (forall token message,
     ContextToken r = CtxString token ->
     business_Get env token = inr (inl message) ->
     NewOptions env r n = Panic (Internal message)).
Proof.
  intros Hfirst. rewrite NewOptions_parameters, Hfirst.
  unfold afterParameters.
  destruct (resolvedQueryTime_Ok env r n) as (queryTime & n1 & Hq).
  rewrite (bind_Ok _ _ _ _ _ Hq).
  repeat split.
  - by intros ->.
  - by intros ->.
  - intros token message -> Hget. rewrite bind_ret.
    unfold getAccessibleNamespaces. by rewrite Hget.
  - intros token message -> Hget. rewrite bind_ret.
    unfold getAccessibleNamespaces. by rewrite Hget.
Qed.

(** The run of X2 on a request that carries no token and names no
    namespace. *)
Lemma token_and_gateway_failures_witness :
  @NewOptions reference.platform reference.env
    {| Vars := ∅; Query := ∅; ContextToken := CtxNil |} 0%nat
  = Panic (Internal "token missing in request context").
Proof.
  refine (proj1 (@token_and_gateway_failures reference.platform reference.env
                   {| Vars := ∅; Query := ∅; ContextToken := CtxNil |} 0%nat
                   _) _).
  - vm_compute. reflexivity.
  - reflexivity.
Defined.

(** *** Requests without a namespace *)

Lemma afterParameters_authorized `{Platform} (env : Env) r accessible n :
  authorizedSet env r = Some accessible ->
  afterParameters env r n =
  (let* queryTime := resolvedQueryTime env r in
   run when (String.eqb (effectiveNamespaces r) "")
         (graph.BadRequest
            "At least one namespace must be specified via the namespaces query parameter.")
   in
   let* namespaceMap :=
     namespaceLoop env accessible (resolvedDuration r) queryTime
       (strings.Split (effectiveNamespaces r) ",") ∅ in
   let* appenders :=
     lift (parseAppenders (Query r)
             (descriptor r accessible queryTime namespaceMap [])) in
   ret (descriptor r accessible queryTime namespaceMap appenders)) n.
Proof.
  intros Hauth. unfold afterParameters.
  apply bind_ext. intros queryTime n1.
  destruct (authorizedSet_token env r accessible Hauth) as [token Htoken].
  rewrite Htoken, bind_ret.
  rewrite (bind_Ok _ _ _ accessible n1); [reflexivity|].
  rewrite (getAccessibleNamespaces_authorized env r token n1 Htoken).
  by rewrite Hauth.
Qed.

(** X3: with valid parameters and an authorized caller, a request that
    gives neither the namespace path variable nor a namespaces parameter
    (or an empty one) fails with BadRequest, at least one namespace being
    required.  A namespaces value that is not empty but whose first token
    is blank is no such request: it asks for the namespace of the empty
    name, and fails with Forbidden for it when that is not accessible. *)
Theorem no_namespace_given `{Platform} (env : Env) (r : Request) n accessible :
  firstParameterError r = None ->
  authorizedSet env r = Some accessible ->
  (index (Vars r) "namespace" = "" -> Get (Query r) "namespaces" = "" ->
   NewOptions env r n =
   Panic (BadRequest
            "At least one namespace must be specified via the namespaces query parameter.")) /\
  (effectiveNamespaces r <> "" ->
   head (requestedNamespaces r) = Some "" ->
   accessible !! "" = None ->
   NewOptions env r n =
   Panic (Forbidden "Requested namespace [] is not accessible.")).
Proof.
  intros Hfirst Hauth.
  rewrite NewOptions_parameters, Hfirst,
    (afterParameters_authorized env r accessible n Hauth).
  destruct (resolvedQueryTime_Ok env r n) as (queryTime & n1 & Hq).
  rewrite (bind_Ok _ _ _ _ _ Hq).
  split.
  - intros Hvar Hparam.
    assert (Heff : effectiveNamespaces r = "").
    { unfold effectiveNamespaces. by rewrite Hvar, Hparam. }
    by rewrite Heff.
  - intros Heff Hhead Hnone.
    apply String.eqb_neq in Heff. rewrite Heff. cbn [when]. rewrite bind_ret.
    apply bind_Panic.
    pose proof (namespaceLoop_spec env accessible (resolvedDuration r) queryTime
                  (strings.Split (effectiveNamespaces r) ",") ∅ n1) as Hspec.
    fold (requestedNamespaces r) in Hspec.
    destruct (requestedNamespaces r) as [|first rest]; [done|].
    injection Hhead as ->.
    cbn [firstMissing] in Hspec. unfold has in Hspec.
    by rewrite Hnone in Hspec.
Qed.

(** The run of X3 on a request whose namespaces parameter is one blank. *)
Lemma no_namespace_given_witness :
  @NewOptions reference.platform reference.env
    (reference.request [] [("namespaces", " ")]) 0%nat
  = Panic (Forbidden "Requested namespace [] is not accessible.").
Proof.
  refine (proj2 (@no_namespace_given reference.platform reference.env
                   (reference.request [] [("namespaces", " ")]) 0%nat
                   (list_to_map [("bookinfo", reference.Unix 1500000000 0);
                                 ("istio-system", reference.Build_WallTime 0 0)])
                   _ _) _ _ _).
  - vm_compute. reflexivity.
  - vm_compute. reflexivity.
  - vm_compute. congruence.
  - vm_compute. reflexivity.
  - vm_compute. reflexivity.
Defined.

(** *** The descriptor that is returned *)

(** A descriptor is returned for a valid request of an authorized caller
    only, and is the [descriptor] of what the steps of the resolution
    return. *)
Lemma NewOptions_Ok_descriptor `{Platform} (env : Env) r n o n' :
  NewOptions env r n = Ok (o, n') ->
  exists accessible queryTime n1 namespaceMap appenders,
    parametersValid r = true /\
    authorizedSet env r = Some accessible /\
    resolvedQueryTime env r n = Ok (queryTime, n1) /\
    namespaceLoop env accessible (resolvedDuration r) queryTime
      (strings.Split (effectiveNamespaces r) ",") ∅ n1 = Ok (namespaceMap, n') /\
    parseAppenders (Query r)
      (descriptor r accessible queryTime namespaceMap []) = Ok appenders /\
    o = descriptor r accessible queryTime namespaceMap appenders.
Proof.
  intros Hrun.
  apply NewOptions_Ok_inv in Hrun as (Hvalid & accessible & Hauth & Hres).
  apply resolution_Ok_inv in Hres
    as (queryTime & n1 & namespaceMap & appenders & Hq & Hloop & Hpa & ->).
  by exists accessible, queryTime, n1, namespaceMap, appenders.
Qed.

(** What [resolveNamespaceDuration] returns and what it does to the
    clock. *)
Lemma resolveNamespaceDuration_run `{Platform} (env : Env) nsCreated d queryTime n :
  exists result,
    resolveNamespaceDuration env nsCreated d queryTime n
    = Ok (result,
          if negb (time_IsZero nsCreated) && (queryTime =? 0) then S n else n) /\
    result <= d /\
    (time_IsZero nsCreated = true -> result = d) /\
    (queryTime <> 0 ->
     result = if time_IsZero nsCreated then d
              else Z.min d (time_Sub (time_Unix queryTime 0) nsCreated)).
Proof.
  unfold resolveNamespaceDuration.
  destruct (time_IsZero nsCreated) eqn:Hzero; simpl.
  - exists d. unfold ret. repeat split; lia.
  - destruct (queryTime =? 0) eqn:Hq; simpl; unfold bind, ret, time_Now; simpl.
    + eexists. split; [reflexivity|]. apply Z.eqb_eq in Hq.
      repeat split; try done.
      destruct (Z.ltb_spec (time_Sub (clock env n) nsCreated) d); lia.
    + eexists. split; [reflexivity|].
      repeat split; try done;
        destruct (Z.ltb_spec (time_Sub (time_Unix queryTime 0) nsCreated) d); lia.
Qed.

(** The entries the loop over the namespaces writes. *)
Lemma namespaceLoop_entries `{Platform} (env : Env) accessible d queryTime
    (P : string -> graph.NamespaceInfo -> Prop) tokens :
  (forall k created result n,
     accessible !! k = Some created ->
     (exists n', resolveNamespaceDuration env created d queryTime n = Ok (result, n')) ->
     P k {| graph.Name := k; graph.Duration := result |}) ->
  forall m n m' n',
    namespaceLoop env accessible d queryTime tokens m n = Ok (m', n') ->
    (forall k info, m !! k = Some info -> P k info) ->
    forall k info, m' !! k = Some info -> P k info.
Proof.
  intros Hstep. induction tokens as [|tok rest IH]; intros m n m' n' Hrun Hm.
  - unfold namespaceLoop, ret in Hrun. by injection Hrun as <- <-.
  - cbn [namespaceLoop] in Hrun.
    destruct (accessible !! strings.TrimSpace tok) as [created|] eqn:Hacc;
      [|done].
    apply bind_Ok_inv in Hrun as (result & n1 & Hres & Hrun).
    apply (IH _ _ _ _ Hrun).
    intros k info. destruct (decide (strings.TrimSpace tok = k)) as [<-|Hne].
    + rewrite lookup_insert_eq. intros [= <-].
      apply (Hstep _ created result n Hacc). by exists n1.
    + rewrite lookup_insert_ne by done. apply Hm.
Qed.

(** X4: the target namespaces of a descriptor that is returned are exactly
    the namespaces the request asks for, and all of them are authorized.
    The entry of a namespace carries its name, and a duration that is never
    longer than the duration of the descriptor; it is that duration for a
    namespace whose creation time is not set. *)
Theorem target_namespaces_of_descriptor `{Platform} (env : Env) (r : Request)
    n o n' :
  NewOptions env r n = Ok (o, n') ->
  authorizedSet env r = Some (AccessibleNamespaces o) /\
  (forall k, is_Some (Namespaces o !! k) <-> k ∈ requestedNamespaces r) /\
  (forall k info,
     Namespaces o !! k = Some info ->
     graph.Name info = k /\
     graph.Duration info <= Duration (vendorOptions o) /\
     exists created,
       AccessibleNamespaces o !! k = Some created /\
       (time_IsZero created = true ->
        graph.Duration info = Duration (vendorOptions o))).
Proof.
  intros Hrun.
  destruct (NewOptions_Ok_namespaces env r n o n' Hrun)
    as (accessible' & Hauth' & _ & Hdom).
  apply NewOptions_Ok_descriptor in Hrun
    as (accessible & queryTime & n1 & namespaceMap & appenders &
        _ & Hauth & _ & Hloop & _ & ->).
  split; [done|]. split; [done|]. cbn [Namespaces descriptor].
  cbn [AccessibleNamespaces vendorOptions Duration].
  assert (Hstep : forall k created result m,
    accessible !! k = Some created ->
    (exists m', resolveNamespaceDuration env created (resolvedDuration r)
                  queryTime m = Ok (result, m')) ->
    graph.Name {| graph.Name := k; graph.Duration := result |} = k /\
    graph.Duration {| graph.Name := k; graph.Duration := result |}
    <= resolvedDuration r /\
    exists created',
      accessible !! k = Some created' /\
      (time_IsZero created' = true ->
       graph.Duration {| graph.Name := k; graph.Duration := result |}
       = resolvedDuration r)).
  { intros k created result m Hacc [m' Hres]. cbn.
    destruct (resolveNamespaceDuration_run env created (resolvedDuration r)
                queryTime m) as (result' & Hres' & Hle & Hzero & _).
    rewrite Hres in Hres'. injection Hres' as <- _.
    split; [done|]. split; [done|]. by exists created. }
  apply (namespaceLoop_entries env accessible (resolvedDuration r) queryTime
           (fun k info =>
              graph.Name info = k /\
              graph.Duration info <= resolvedDuration r /\
              exists created,
                accessible !! k = Some created /\
                (time_IsZero created = true ->
                 graph.Duration info = resolvedDuration r))
           _ Hstep ∅ n1 namespaceMap n' Hloop).
  intros k info. by rewrite lookup_empty.
Qed.

(** The run of X4 on a request for two namespaces, one of them without a
    creation time. *)
Lemma target_namespaces_of_descriptor_witness :
  exists o n',
    @NewOptions reference.platform reference.env
      (reference.request [] [("namespaces", "bookinfo, istio-system")]) 0%nat
    = Ok (o, n') /\
    forall k, is_Some (Namespaces o !! k) <->
              k ∈ ["bookinfo"; "istio-system"].
Proof.
  destruct (succeeds_Ok
              (@NewOptions reference.platform reference.env
                 (reference.request
                    [] [("namespaces", "bookinfo, istio-system")]) 0%nat))
    as [[o n'] Hrun]; [vm_compute; reflexivity|].
  exists o, n'. split; [exact Hrun|].
  exact (proj1 (proj2 (@target_namespaces_of_descriptor reference.platform
                         reference.env _ _ _ _ Hrun))).
Defined.

(** *** The pipeline of the descriptor *)

Lemma configuredBy_assemble `{Platform} sel q (o : Options) a :
  a ∈ assemble sel q o -> configuredBy o q a.
Proof.
  unfold assemble. rewrite !elem_of_app.
  intros [Hin|[Hin|[Hin|[Hin|[Hin|[Hin|Hin]]]]]];
    match type of Hin with
    | _ ∈ (if ?b then _ else _) => destruct b
    end;
    try (by apply elem_of_nil in Hin);
    apply list_elem_of_singleton in Hin; subst a; cbn; done.
Qed.

(** X5: the pipeline of a descriptor that is returned holds the stages the
    request selects, in the fixed order, and every stage is configured from
    the descriptor it is part of: the graph type, the flags (with
    [InjectServiceNodes] as forced for a service graph), the target
    namespaces and the query time of the ResponseTime and SecurityPolicy
    stages, the accessible namespaces of the ServiceEntry stage, and the
    graph type and node flag of the UnusedNode stage are the
    descriptor's. *)
Theorem pipeline_of_descriptor `{Platform} (env : Env) (r : Request) n o n' :
  NewOptions env r n = Ok (o, n') ->
  map stageOf (Appenders o) = List.filter (selects (Query r)) tableOrder /\
  forall a, a ∈ Appenders o -> configuredBy o (responseTimeQuantile (Query r)) a.
Proof.
  intros Hrun.
  apply NewOptions_Ok_descriptor in Hrun
    as (accessible & queryTime & n1 & namespaceMap & appenders &
        _ & _ & _ & _ & Hpa & ->).
  cbn [Appenders descriptor].
  rewrite parseAppenders_spec in Hpa.
  destruct (has (Query r) "appenders") eqn:Hhas.
  - destruct (firstUnrecognized (requestedNames (Query r))); [done|].
    injection Hpa as <-. split; [apply stageOf_assemble|].
    intros a Hin. apply configuredBy_assemble in Hin.
    destruct a; exact Hin.
  - injection Hpa as <-. split.
    + rewrite stageOf_assemble. unfold selects. by rewrite Hhas.
    + intros a Hin. apply configuredBy_assemble in Hin.
      destruct a; exact Hin.
Qed.

(** The run of X5 on a service graph that asks for injectServiceNodes=false
    and for the stage responseTime: the stage has the flag set. *)
Lemma pipeline_of_descriptor_witness :
  exists o n',
    @NewOptions reference.platform reference.env
      (reference.request [] [("namespaces", "bookinfo"); ("graphType", "service");
                             ("injectServiceNodes", "false");
                             ("appenders", "responseTime")]) 0%nat
    = Ok (o, n') /\
    map stageOf (Appenders o) = [ResponseTime] /\
    forall a, a ∈ Appenders o ->
              configuredBy o (@DefaultQuantile reference.platform) a.
Proof.
  destruct (succeeds_Ok
              (@NewOptions reference.platform reference.env
                 (reference.request
                    [] [("namespaces", "bookinfo"); ("graphType", "service");
                        ("injectServiceNodes", "false");
                        ("appenders", "responseTime")]) 0%nat))
    as [[o n'] Hrun]; [vm_compute; reflexivity|].
  exists o, n'. split; [exact Hrun|].
  exact (@pipeline_of_descriptor reference.platform reference.env _ _ _ _ Hrun).
Defined.

(** *** The kind of a graph *)

(** X6: the node flag of the UnusedNode stage and [GetGraphKind] look at
    different fields.  When the flag is set the graph is a node graph; a
    node graph has the flag set unless the version is the only field of the
    node options that is set, in which case [GetGraphKind] says node and the
    flag is not set.  The namespace field alone never makes a node graph. *)
Theorem graph_kind_and_node_flag `{Platform} (params : Values) (o : Options)
    l graphType isNodeGraph :
  parseAppenders params o = Ok l ->
  appender.UnusedNodeAppender graphType isNodeGraph ∈ l ->
  (isNodeGraph = true -> GetGraphKind o = graphKindNode) /\
  (isNodeGraph = false -> GetGraphKind o = graphKindNode ->
   Version (nodeOptions o) <> "" /\ App (nodeOptions o) = "" /\
   Workload (nodeOptions o) = "" /\ Service (nodeOptions o) = "") /\
  (GetGraphKind o = graphKindNamespace <->
   App (nodeOptions o) = "" /\ Version (nodeOptions o) = "" /\
   Workload (nodeOptions o) = "" /\ Service (nodeOptions o) = "").
Proof.
  intros Hpa Hin.
  assert (Hflag : isNodeGraph =
    (App (nodeOptions o) !=? "") || (Workload (nodeOptions o) !=? "") ||
    (Service (nodeOptions o) !=? "")).
  { rewrite parseAppenders_spec in Hpa.
    destruct (has params "appenders");
      [destruct (firstUnrecognized (requestedNames params)); [done|]|];
      injection Hpa as <-; apply configuredBy_assemble in Hin;
      by destruct Hin. }
  unfold GetGraphKind, neqb in *. rewrite Hflag. clear Hflag Hin Hpa.
  destruct (String.eqb_spec (App (nodeOptions o)) "") as [->|Ha];
    destruct (String.eqb_spec (Version (nodeOptions o)) "") as [->|Hv];
    destruct (String.eqb_spec (Workload (nodeOptions o)) "") as [->|Hw];
    destruct (String.eqb_spec (Service (nodeOptions o)) "") as [->|Hs];
    cbn; repeat split; try done; try (intros; done); try tauto.
Qed.

(** The run of X6 on the options of a request for a version: the graph is a
    node graph and the flag of the stage is not set. *)
Lemma graph_kind_and_node_flag_witness :
  GetGraphKind versionOnlyOptions = graphKindNode /\
  @parseAppenders reference.platform
    (reference.values [("appenders", "unusedNode")]) versionOnlyOptions
  = Ok [appender.UnusedNodeAppender "workload" false] /\
  Version (nodeOptions versionOnlyOptions) <> "".
Proof.
  assert (Hrun : @parseAppenders reference.platform
            (reference.values [("appenders", "unusedNode")]) versionOnlyOptions
          = Ok [appender.UnusedNodeAppender "workload" false]).
  { rewrite parseAppenders_spec. reflexivity. }
  split; [reflexivity|]. split; [exact Hrun|].
  refine (proj1 (proj1 (proj2 (@graph_kind_and_node_flag reference.platform
                                 _ _ _ "workload" false Hrun _)) _ _)).
  - by apply list_elem_of_singleton.
  - reflexivity.
  - reflexivity.
Defined.

(** *** The accessible namespaces *)

Lemma fold_insert_lookup `{Platform} (namespaces : list models.Namespace)
    (m : gmap string Time) name :
  fold_left
    (fun namespaceMap namespace =>
       <[models.Name namespace := models.CreationTimestamp namespace]> namespaceMap)
    namespaces m !! name =
  match lastCreation namespaces name with
  | Some created => Some created
  | None => m !! name
  end.
Proof.
  revert m. induction namespaces as [|namespace rest IH]; intros m; [done|].
  cbn [fold_left lastCreation]. rewrite IH.
  destruct (lastCreation rest name); [done|].
  destruct (String.eqb_spec (models.Name namespace) name) as [->|Hne].
  - by rewrite lookup_insert_eq.
  - by rewrite lookup_insert_ne.
Qed.

Lemma lastCreation_is_Some `{Platform} (namespaces : list models.Namespace) name :
  is_Some (lastCreation namespaces name) <-> name ∈ map models.Name namespaces.
Proof.
  induction namespaces as [|namespace rest IH]; cbn [lastCreation map].
  - split; [by intros [? ?]|]. intros Hin. by apply elem_of_nil in Hin.
  - rewrite elem_of_cons, <- IH.
    destruct (lastCreation rest name) as [created|].
    + split; [intros _; right|]; by eexists.
    + destruct (String.eqb_spec (models.Name namespace) name) as [->|Hne].
      * split; [by left|]. by eexists.
      * split; [by intros [? ?]|]. intros [Heq|[? ?]]; congruence.
Qed.

(** X7: when the gateway answers, [getAccessibleNamespaces] returns a map
    with a key for every namespace of the answer and for nothing else; a
    namespace has the creation time of its last entry in the answer; the
    clock is not read.  When [business.Get] or [GetNamespaces] fails, the
    call fails with that error. *)
Theorem getAccessibleNamespaces_map `{Platform} (env : Env) token n :
  (forall namespaces,
     business_Get env token = inr (inr namespaces) ->
     exists accessible,
       getAccessibleNamespaces env token n = Ok (accessible, n) /\
       (forall name, accessible !! name = lastCreation namespaces name) /\
       (forall name, is_Some (accessible !! name) <->
                     name ∈ map models.Name namespaces)) /\
  (forall message,
     business_Get env token = inl message \/
     business_Get env token = inr (inl message) ->
     getAccessibleNamespaces env token n = Panic (Internal message)).
Proof.
  unfold getAccessibleNamespaces. split.
  - intros namespaces ->. cbn. eexists. split; [reflexivity|].
    assert (Hlookup : forall name,
      fold_left
        (fun namespaceMap namespace =>
           <[models.Name namespace := models.CreationTimestamp namespace]>
             namespaceMap) namespaces (∅ : gmap string Time) !! name
      = lastCreation namespaces name).
    { intros name. rewrite fold_insert_lookup, lookup_empty.
      by destruct (lastCreation namespaces name). }
    split; [done|]. intros name. rewrite Hlookup. apply lastCreation_is_Some.
  - intros message [-> | ->]; reflexivity.
Qed.

(** The run of X7 on a gateway that lists the namespace bookinfo twice:
    the second creation time is the one that is kept. *)
Lemma getAccessibleNamespaces_map_witness :
  exists accessible,
    @getAccessibleNamespaces reference.platform
      (@Build_Env reference.platform
         (fun _ => inr (inr [@models.Build_Namespace reference.platform
                               "bookinfo" (reference.Unix 1 0);
                             @models.Build_Namespace reference.platform
                               "bookinfo" (reference.Unix 2 0)]))
         (fun _ => reference.Unix 0 0))
      "token" 0%nat = Ok (accessible, 0%nat) /\
    accessible !! "bookinfo" = Some (reference.Unix 2 0).
Proof.
  destruct (proj1 (@getAccessibleNamespaces_map reference.platform
              (@Build_Env reference.platform
                 (fun _ => inr (inr [@models.Build_Namespace reference.platform
                                       "bookinfo" (reference.Unix 1 0);
                                     @models.Build_Namespace reference.platform
                                       "bookinfo" (reference.Unix 2 0)]))
                 (fun _ => reference.Unix 0 0))
              "token" 0%nat) _ eq_refl)
    as (accessible & Hrun & Hlookup & _).
  exists accessible. split; [exact Hrun|]. by rewrite Hlookup.
Defined.

(** *** The clock *)

(** X8: [resolveNamespaceDuration] never returns more than the requested
    range.  It reads the clock once when the creation time is set and the
    query time is zero, and not at all else; with a query time that is not
    zero its result is the same in every environment. *)
Theorem resolveNamespaceDuration_bound `{Platform} (env : Env) nsCreated d
    queryTime n :
  exists result,
    resolveNamespaceDuration env nsCreated d queryTime n
    = Ok (result,
          if negb (time_IsZero nsCreated) && (queryTime =? 0) then S n else n) /\
    result <= d /\
    (queryTime <> 0 ->
     forall (env' : Env) n',
       resolveNamespaceDuration env' nsCreated d queryTime n' = Ok (result, n')).
Proof.
  destruct (resolveNamespaceDuration_run env nsCreated d queryTime n)
    as (result & Hrun & Hle & _ & Hq).
  exists result. split; [done|]. split; [done|].
  intros Hne env' n'.
  destruct (resolveNamespaceDuration_run env' nsCreated d queryTime n')
    as (result' & Hrun' & _ & _ & Hq').
  rewrite Hrun', (Hq Hne), (Hq' Hne).
  apply Z.eqb_neq in Hne. rewrite Hne. by rewrite andb_false_r.
Qed.

(** The run of X8 with the query time 1500000060, one minute after the
    creation of the namespace, at the eighth reading of a clock: the clock
    is not read. *)
Lemma resolveNamespaceDuration_bound_witness :
  exists result,
    @resolveNamespaceDuration reference.platform reference.env
      (reference.Unix 1500000000 0) 600000000000 1500000060 7%nat
    = Ok (result, 7%nat) /\
    result <= 600000000000.
Proof.
  destruct (@resolveNamespaceDuration_bound reference.platform reference.env
              (reference.Unix 1500000000 0) 600000000000 1500000060 7%nat)
    as (result & Hrun & Hle & _).
  exists result. split; [exact Hrun|exact Hle].
Defined.

Lemma namespaceLoop_no_clock `{Platform} (env env' : Env) accessible d queryTime
    tokens :
  queryTime <> 0 ->
  forall m n n',
    namespaceLoop env' accessible d queryTime tokens m n' =
    match namespaceLoop env accessible d queryTime tokens m n with
    | Ok (m', n1) => Ok (m', n')
    | Panic f => Panic f
    end /\
    (forall m' n1,
       namespaceLoop env accessible d queryTime tokens m n = Ok (m', n1) ->
       n1 = n).
Proof.
  intros Hq. induction tokens as [|tok rest IH]; intros m n n'.
  - cbn. split; [done|]. by intros m' n1 [= _ <-].
  - cbn [namespaceLoop].
    destruct (accessible !! strings.TrimSpace tok) as [created|]; [|done].
    destruct (resolveNamespaceDuration_run env created d queryTime n)
      as (result & Hrun & _ & _ & Hres).
    destruct (resolveNamespaceDuration_run env' created d queryTime n')
      as (result' & Hrun' & _ & _ & Hres').
    assert (Hstay : forall k : nat,
      (if negb (time_IsZero created) && (queryTime =? 0) then S k else k) = k).
    { intros k. apply Z.eqb_neq in Hq. rewrite Hq. by rewrite andb_false_r. }
    rewrite Hstay in Hrun, Hrun'.
    rewrite (Hres Hq) in Hrun. rewrite (Hres' Hq) in Hrun'.
    rewrite (bind_Ok _ _ _ _ _ Hrun), (bind_Ok _ _ _ _ _ Hrun').
    apply IH.
Qed.

Lemma getAccessibleNamespaces_cases `{Platform} (env : Env) token :
  (exists accessible, forall (env' : Env) k,
      business_Get env' token = business_Get env token ->
      getAccessibleNamespaces env' token k = Ok (accessible, k)) \/
  (exists f, forall (env' : Env) k,
      business_Get env' token = business_Get env token ->
      getAccessibleNamespaces env' token k = Panic f).
Proof.
  unfold getAccessibleNamespaces.
  destruct (business_Get env token) as [message|[message|namespaces]].
  - right. eexists. by intros env' k ->.
  - right. eexists. by intros env' k ->.
  - left. eexists. by intros env' k ->.
Qed.

(** X9: for a request with a queryTime parameter that parses to a value
    other than zero, [NewOptions] does not read the clock: the descriptor or
    the failure it returns is the same at every state of every clock, as
    long as the gateway answers alike; the query time of the descriptor is
    the value of the parameter. *)
Theorem explicit_query_time_needs_no_clock `{Platform} (env : Env)
    (r : Request) n queryTime :
  strconv.ParseInt (Get (Query r) "queryTime") = Some queryTime ->
  queryTime <> 0 ->
  (forall o n', NewOptions env r n = Ok (o, n') ->
     n' = n /\ QueryTime (vendorOptions o) = queryTime) /\
  (forall (env' : Env) n',
     (forall token, business_Get env' token = business_Get env token) ->
     NewOptions env' r n' =
     match NewOptions env r n with
     | Ok (o, _) => Ok (o, n')
     | Panic f => Panic f
     end).
Proof.
  intros Hparse Hq.
  assert (Hqt : forall (e : Env) k, resolvedQueryTime e r k = Ok (queryTime, k)).
  { intros e k. unfold resolvedQueryTime. rewrite Hparse.
    destruct (String.eqb_spec (Get (Query r) "queryTime") "") as [Hemp|_];
      [|done].
    rewrite Hemp in Hparse. discriminate. }
  assert (Hafter : forall (env' : Env) n',
    (forall token, business_Get env' token = business_Get env token) ->
    afterParameters env' r n' =
    match afterParameters env r n with
    | Ok (o, _) => Ok (o, n')
    | Panic f => Panic f
    end /\
    (forall o n1, afterParameters env r n = Ok (o, n1) ->
       n1 = n /\ QueryTime (vendorOptions o) = queryTime)).
  { intros env' n' Hget. unfold afterParameters.
    rewrite (bind_Ok _ _ _ _ _ (Hqt env n)), (bind_Ok _ _ _ _ _ (Hqt env' n')).
    destruct (ContextToken r) as [|token|]; try done.
    rewrite !bind_ret.
    destruct (getAccessibleNamespaces_cases env token)
      as [[accessible Hacc]|[f Hacc]].
    2:{ rewrite (bind_Panic _ _ _ _ (Hacc env n eq_refl)).
        by rewrite (bind_Panic _ _ _ _ (Hacc env' n' (Hget token))). }
    rewrite (bind_Ok _ _ _ _ _ (Hacc env n eq_refl)),
      (bind_Ok _ _ _ _ _ (Hacc env' n' (Hget token))).
    destruct (String.eqb (effectiveNamespaces r) ""); [done|].
    cbn [when]. rewrite !bind_ret.
    destruct (namespaceLoop_no_clock env env' accessible (resolvedDuration r)
                queryTime (strings.Split (effectiveNamespaces r) ",") Hq ∅ n n')
      as [Hloop' Hsame].
    destruct (namespaceLoop env accessible (resolvedDuration r) queryTime
                (strings.Split (effectiveNamespaces r) ",") ∅ n)
      as [[namespaceMap n1]|f] eqn:Hloop.
    2:{ rewrite (bind_Panic _ _ _ _ Hloop'). by rewrite (bind_Panic _ _ _ _ Hloop). }
    rewrite (bind_Ok _ _ _ _ _ Hloop'), (bind_Ok _ _ _ _ _ Hloop).
    pose proof (Hsame _ _ eq_refl) as ->.
    destruct (parseAppenders _ _) as [appenders|f]; cbn; [|done].
    split; [done|]. by intros o n1 [= <- <-]. }
  rewrite NewOptions_parameters.
  split.
  - intros o n'. destruct (firstParameterError r); [done|].
    apply (proj2 (Hafter env n (fun _ => eq_refl))).
  - intros env' n' Hget. rewrite NewOptions_parameters.
    destruct (firstParameterError r); [done|].
    apply (proj1 (Hafter env' n' Hget)).
Qed.

(** The run of X9 on a request with the query time 1500000060: the state
    of the clock is what it was. *)
Lemma explicit_query_time_needs_no_clock_witness :
  exists o,
    @NewOptions reference.platform reference.env
      (reference.request [] [("namespaces", "bookinfo");
                             ("queryTime", "1500000060")]) 3%nat
    = Ok (o, 3%nat) /\
    QueryTime (vendorOptions o) = 1500000060.
Proof.
  destruct (succeeds_Ok
              (@NewOptions reference.platform reference.env
                 (reference.request [] [("namespaces", "bookinfo");
                                        ("queryTime", "1500000060")]) 3%nat))
    as [[o n'] Hrun]; [vm_compute; reflexivity|].
  destruct (proj1 (@explicit_query_time_needs_no_clock reference.platform
                     reference.env
                     (reference.request [] [("namespaces", "bookinfo");
                                            ("queryTime", "1500000060")])
                     3%nat 1500000060
                     ltac:(vm_compute; reflexivity) ltac:(lia))
                  o n' Hrun) as [-> Hqt].
  by exists o.
Defined.

(** *** The parameters that are read *)

(** X10: [NewOptions] reads ten query parameters and no other: two requests
    with the same path variables and token whose queries agree on those ten
    are resolved alike, so a parameter it does not know is never an
    error. *)
Theorem unknown_parameters_ignored `{Platform} (env : Env) (r r' : Request) n :
  Vars r' = Vars r ->
  ContextToken r' = ContextToken r ->
  (forall key, key ∈ knownParameters -> Query r' !! key = Query r !! key) ->
  NewOptions env r' n = NewOptions env r n.
Proof.
  intros Hvars Htoken Hquery.
  assert (Hkey : forall key, key ∈ knownParameters ->
            Get (Query r') key = Get (Query r) key /\
            has (Query r') key = has (Query r) key).
  { intros key Hin. split; [apply Get_ext|apply has_ext]; by apply Hquery. }
  assert (Hin : forall key, inb key knownParameters = true -> key ∈ knownParameters).
  { intros key. apply inb_elem_of. }
  unfold NewOptions, parseAppenders, responseTimeQuantile. cbv zeta.
  rewrite Hvars, Htoken.
  rewrite (proj1 (Hkey "duration" (Hin "duration" eq_refl))).
  rewrite (proj1 (Hkey "graphType" (Hin "graphType" eq_refl))).
  rewrite (proj1 (Hkey "groupBy" (Hin "groupBy" eq_refl))).
  rewrite (proj1 (Hkey "includeIstio" (Hin "includeIstio" eq_refl))).
  rewrite (proj1 (Hkey "injectServiceNodes" (Hin "injectServiceNodes" eq_refl))).
  rewrite (proj1 (Hkey "namespaces" (Hin "namespaces" eq_refl))).
  rewrite (proj1 (Hkey "queryTime" (Hin "queryTime" eq_refl))).
  rewrite (proj1 (Hkey "vendor" (Hin "vendor" eq_refl))).
  rewrite (proj1 (Hkey "appenders" (Hin "appenders" eq_refl))).
  rewrite (proj1 (Hkey "responseTimeQuantile" (Hin "responseTimeQuantile" eq_refl))).
  rewrite (proj2 (Hkey "appenders" (Hin "appenders" eq_refl))).
  rewrite (proj2 (Hkey "responseTimeQuantile" (Hin "responseTimeQuantile" eq_refl))).
  reflexivity.
Qed.

(** The run of X10 on a request with the parameters verbose and refresh,
    which the code does not know. *)
Lemma unknown_parameters_ignored_witness :
  @NewOptions reference.platform reference.env
    (reference.request [] [("namespaces", "bookinfo"); ("verbose", "yes");
                           ("refresh", "15")]) 0%nat
  = @NewOptions reference.platform reference.env
      (reference.request [] [("namespaces", "bookinfo")]) 0%nat.
Proof.
  apply (@unknown_parameters_ignored reference.platform reference.env
           (reference.request [] [("namespaces", "bookinfo")])
           (reference.request [] [("namespaces", "bookinfo"); ("verbose", "yes");
                                  ("refresh", "15")]) 0%nat).
  - reflexivity.
  - reflexivity.
  - intros key Hkey. unfold knownParameters in Hkey.
    repeat (apply elem_of_cons in Hkey as [->|Hkey]; [vm_compute; reflexivity|]).
    by apply elem_of_nil in Hkey.
Defined.

(** *** The fields of the descriptor *)

(** X11: a descriptor that is returned has the vendor cytoscape, one of the
    four graph types and one of the three groupings; when its app is set its
    graph type is app or versionedApp; its node options are the path
    variables of the request, none of them changed. *)
Theorem descriptor_invariants `{Platform} (env : Env) (r : Request) n o n' :
  NewOptions env r n = Ok (o, n') ->
  Vendor o = VendorCytoscape /\
  GraphType (vendorOptions o) ∈
    [graph.GraphTypeApp; graph.GraphTypeService; graph.GraphTypeVersionedApp;
     graph.GraphTypeWorkload] /\
  GroupBy (vendorOptions o) ∈ [GroupByApp; GroupByNone; GroupByVersion] /\
  (App (nodeOptions o) <> "" ->
   GraphType (vendorOptions o) = graph.GraphTypeApp \/
   GraphType (vendorOptions o) = graph.GraphTypeVersionedApp) /\
  nodeOptions o =
    {| App := index (Vars r) "app"; Namespace := index (Vars r) "namespace";
       Service := index (Vars r) "service"; Version := index (Vars r) "version";
       Workload := index (Vars r) "workload" |}.
Proof.
  intros Hrun.
  apply NewOptions_Ok_descriptor in Hrun
    as (accessible & queryTime & n1 & namespaceMap & appenders &
        Hvalid & _ & _ & _ & _ & ->).
  rewrite parametersValid_checks in Hvalid.
  apply andb_true_iff in Hvalid as [_ Hvalid].
  apply andb_true_iff in Hvalid as [Hgt Hvalid].
  apply andb_true_iff in Hvalid as [Happ Hvalid].
  apply andb_true_iff in Hvalid as [Hgb Hvalid].
  do 3 apply andb_true_iff in Hvalid as [_ Hvalid].
  apply andb_true_iff in Hvalid as [Hvendor _].
  cbn [Vendor vendorOptions GraphType GroupBy nodeOptions App descriptor].
  repeat split.
  - unfold vendorValid, resolvedVendor, neqb in *. cbv zeta in Hvendor.
    destruct (String.eqb_spec (Get (Query r) "vendor") ""); [done|].
    by destruct (String.eqb_spec (Get (Query r) "vendor") VendorCytoscape).
  - unfold graphTypeValid, resolvedGraphType, neqb in *. cbv zeta in Hgt.
    destruct (String.eqb_spec (Get (Query r) "graphType") "");
      [unfold defaultGraphType; set_solver|].
    destruct (String.eqb_spec (Get (Query r) "graphType") graph.GraphTypeApp)
      as [->|_]; [set_solver|].
    destruct (String.eqb_spec (Get (Query r) "graphType") graph.GraphTypeService)
      as [->|_]; [set_solver|].
    destruct (String.eqb_spec (Get (Query r) "graphType")
                graph.GraphTypeVersionedApp) as [->|_]; [set_solver|].
    destruct (String.eqb_spec (Get (Query r) "graphType") graph.GraphTypeWorkload)
      as [->|_]; [set_solver|done].
  - unfold groupByValid, resolvedGroupBy, neqb in *. cbv zeta in Hgb.
    destruct (String.eqb_spec (Get (Query r) "groupBy") "");
      [unfold defaultGroupBy; set_solver|].
    destruct (String.eqb_spec (Get (Query r) "groupBy") GroupByApp)
      as [->|_]; [set_solver|].
    destruct (String.eqb_spec (Get (Query r) "groupBy") GroupByNone)
      as [->|_]; [set_solver|].
    destruct (String.eqb_spec (Get (Query r) "groupBy") GroupByVersion)
      as [->|_]; [set_solver|done].
  - intros Hset. unfold appGraphTypeValid, neqb in Happ.
    destruct (String.eqb_spec (index (Vars r) "app") ""); [done|].
    destruct (String.eqb_spec (resolvedGraphType r) graph.GraphTypeApp);
      [by left|].
    destruct (String.eqb_spec (resolvedGraphType r) graph.GraphTypeVersionedApp);
      [by right|done].
Qed.

(** The run of X11 on the app reviews of bookinfo. *)
Lemma descriptor_invariants_witness :
  exists o n',
    @NewOptions reference.platform reference.env
      (reference.request [("app", "reviews"); ("namespace", "bookinfo")]
                         [("graphType", "versionedApp")]) 0%nat
    = Ok (o, n') /\
    Vendor o = VendorCytoscape /\
    App (nodeOptions o) = "reviews".
Proof.
  destruct (succeeds_Ok
              (@NewOptions reference.platform reference.env
                 (reference.request
                    [("app", "reviews"); ("namespace", "bookinfo")]
                    [("graphType", "versionedApp")]) 0%nat))
    as [[o n'] Hrun]; [vm_compute; reflexivity|].
  destruct (@descriptor_invariants reference.platform reference.env _ _ _ _ Hrun)
    as (Hvendor & _ & _ & _ & Hnode).
  exists o, n'. split; [exact Hrun|]. split; [exact Hvendor|].
  by rewrite Hnode.
Defined.

(** X12: the fields of a descriptor that is returned are the parameters of
    the request.  A parameter that is absent or empty gives its default:
    ten minutes as [model.ParseDuration] reads them, the graph type
    workload, the grouping none, no Istio, no injected service nodes unless
    the graph type is service, and the Unix seconds of the clock as it read
    when the call was made.  A parameter that is given is the value it
    parses to. *)
Theorem descriptor_parameters `{Platform} (env : Env) (r : Request) n o n' :
  NewOptions env r n = Ok (o, n') ->
  let given (key : string) := Get (Query r) key in
  (if String.eqb (given "duration") ""
   then Duration (vendorOptions o) = default 0 (ParseDuration defaultDuration)
   else ParseDuration (given "duration") = Some (Duration (vendorOptions o))) /\
  (if String.eqb (given "graphType") ""
   then GraphType (vendorOptions o) = graph.GraphTypeWorkload
   else GraphType (vendorOptions o) = given "graphType") /\
  (if String.eqb (given "groupBy") ""
   then GroupBy (vendorOptions o) = GroupByNone
   else GroupBy (vendorOptions o) = given "groupBy") /\
  (if String.eqb (given "includeIstio") ""
   then IncludeIstio o = false
   else strconv.ParseBool (given "includeIstio") = Some (IncludeIstio o)) /\
  (if String.eqb (GraphType (vendorOptions o)) graph.GraphTypeService
   then InjectServiceNodes o = true
   else if String.eqb (given "injectServiceNodes") ""
   then InjectServiceNodes o = false
   else strconv.ParseBool (given "injectServiceNodes")
        = Some (InjectServiceNodes o)) /\
  (if String.eqb (given "queryTime") ""
   then QueryTime (vendorOptions o) = time_UnixOf (clock env n)
   else strconv.ParseInt (given "queryTime") = Some (QueryTime (vendorOptions o))).
Proof.
  intros Hrun given. subst given. cbv beta.
  apply NewOptions_Ok_descriptor in Hrun
    as (accessible & queryTime & n1 & namespaceMap & appenders &
        Hvalid & _ & Hq & _ & _ & ->).
  rewrite parametersValid_checks in Hvalid.
  apply andb_true_iff in Hvalid as [Hd Hvalid].
  do 3 apply andb_true_iff in Hvalid as [_ Hvalid].
  apply andb_true_iff in Hvalid as [Histio Hvalid].
  apply andb_true_iff in Hvalid as [Hinject Hvalid].
  apply andb_true_iff in Hvalid as [Hqt _].
  cbn [vendorOptions Duration GraphType GroupBy QueryTime IncludeIstio
       InjectServiceNodes descriptor].
  unfold durationValid, includeIstioValid, injectServiceNodesValid,
    queryTimeValid in *.
  unfold resolvedDuration, resolvedGraphType, resolvedGroupBy, resolvedBool,
    resolvedQueryTime in *. cbv zeta.
  repeat split.
  - destruct (String.eqb (Get (Query r) "duration") ""); [done|].
    by destruct (ParseDuration (Get (Query r) "duration")).
  - by destruct (String.eqb (Get (Query r) "graphType") "").
  - by destruct (String.eqb (Get (Query r) "groupBy") "").
  - destruct (String.eqb (Get (Query r) "includeIstio") ""); [done|].
    by destruct (strconv.ParseBool (Get (Query r) "includeIstio")).
  - destruct (String.eqb _ graph.GraphTypeService); [done|].
    destruct (String.eqb (Get (Query r) "injectServiceNodes") ""); [done|].
    by destruct (strconv.ParseBool (Get (Query r) "injectServiceNodes")).
  - destruct (String.eqb (Get (Query r) "queryTime") "").
    + unfold bind, time_Now, ret in Hq. by injection Hq as <- _.
    + destruct (strconv.ParseInt (Get (Query r) "queryTime")); [|done].
      unfold ret in Hq. by injection Hq as <- _.
Qed.

(** The run of X12 on a request that gives its namespaces and nothing
    else. *)
Lemma descriptor_parameters_witness :
  exists o n',
    @NewOptions reference.platform reference.env
      (reference.request [] [("namespaces", "bookinfo")]) 0%nat
    = Ok (o, n') /\
    Duration (vendorOptions o) = 600000000000 /\
    GraphType (vendorOptions o) = "workload" /\
    GroupBy (vendorOptions o) = "none" /\
    IncludeIstio o = false /\
    InjectServiceNodes o = false /\
    QueryTime (vendorOptions o) = 1500000300.
Proof.
  destruct (succeeds_Ok
              (@NewOptions reference.platform reference.env
                 (reference.request [] [("namespaces", "bookinfo")]) 0%nat))
    as [[o n'] Hrun]; [vm_compute; reflexivity|].
  pose proof (@descriptor_parameters reference.platform reference.env _ _ _ _ Hrun)
    as Hfields.
  cbv zeta in Hfields.
  change (Get (Query (reference.request [] [("namespaces", "bookinfo")]))
            "duration") with "" in Hfields.
  change (Get (Query (reference.request [] [("namespaces", "bookinfo")]))
            "graphType") with "" in Hfields.
  change (Get (Query (reference.request [] [("namespaces", "bookinfo")]))
            "groupBy") with "" in Hfields.
  change (Get (Query (reference.request [] [("namespaces", "bookinfo")]))
            "includeIstio") with "" in Hfields.
  change (Get (Query (reference.request [] [("namespaces", "bookinfo")]))
            "injectServiceNodes") with "" in Hfields.
  change (Get (Query (reference.request [] [("namespaces", "bookinfo")]))
            "queryTime") with "" in Hfields.
  cbn [String.eqb] in Hfields.
  destruct Hfields as (Hd & Hgt & Hgb & Histio & Hinject & Hqt).
  rewrite Hgt in Hinject. 
  exists o, n'. split; [exact Hrun|].
  split; [by rewrite Hd|]. split; [exact Hgt|]. split; [exact Hgb|].
  split; [exact Histio|]. split; [exact Hinject|]. by rewrite Hqt.
Defined.
